(** * AircraftTracker: the fetch, retry and mapping core of [app.py]

    A shallow embedding of the parts of [src/app.py] that carry logic:
    the positional decoding of a state vector ([State.__init__]), the
    snapshot constructor ([StateVector.__init__]), the HTTP fetcher
    ([OpenSkyApi.get_states]), the retry loop ([get_states]) and the data
    that [create_map] derives for the map layers and the statistics text.

    Conventions of the embedding.
    - A Python value that comes out of [response.json()] is a [pyval].
      JSON numbers are [PInt] (a Python int) or [PFloat]; a float is
      modelled by the rational it denotes ([Qc], canonical rationals), so
      float rounding, infinities and NaN inputs are outside the model.
    - A Python computation that may raise returns a [py_result]; a
      [try] / [except Exception] is a case analysis on it.
    - [print], [time.sleep] and the calls of [api.get_states] are recorded
      as a list of [event]s, in program order.
    - A dict that is only looked up by key is a [gmap string _]; a JSON
      object keeps its insertion order (Python iterates it in that order)
      and is an association list with unique keys. *)

From Stdlib Require Import ZArith QArith Qcanon String Ascii DecimalString.
From stdpp Require Import base option list gmap strings numbers.

#[local] Open Scope Z_scope.

(** ** Python values and exceptions *)

#[local] Set Warnings "-register-all".

Inductive pyval : Type :=
| PNone
| PBool (b : bool)
| PInt (n : Z)
| PFloat (q : Qc)
| PStr (s : string)
| PList (l : list pyval)
| PDict (d : list (string * pyval)).

(** The exceptions the modelled code can meet. *)
Inductive exn : Type :=
| IndexError
| KeyError (k : pyval)
| TypeError
| AttributeError
| JSONDecodeError
| RequestException (what : string).

Inductive py_result (A : Type) : Type :=
| Ok (a : A)
| Raise (e : exn).
Arguments Ok {A} a.
Arguments Raise {A} e.

(** Sequencing: the first exception aborts what follows.  With these
    instances [x ← m; k] is stdpp's monadic notation. *)
#[global] Instance py_result_ret : MRet py_result := λ A a, Ok a.
#[global] Instance py_result_bind : MBind py_result := λ A B k m,
  match m with
  | Ok a => k a
  | Raise e => Raise e
  end.

(** [for x in xs: ys.append(f x)], stopping at the first exception. *)
Fixpoint for_append {A B} (f : A → py_result B) (xs : list A) (ys : list B)
  : py_result (list B) :=
  match xs with
  | [] => Ok ys
  | x :: xs' => y ← f x; for_append f xs' (ys ++ [y])
  end.

(** Truth value of a Python object: [None], [False], zero, and the empty
    string, list and dict are false. *)
Definition py_truthy (v : pyval) : bool :=
  match v with
  | PNone => false
  | PBool b => b
  | PInt n => negb (n =? 0)%Z
  | PFloat q => negb (Qeq_bool q 0%Q)
  | PStr s => negb (String.eqb s "")
  | PList l => match l with [] => false | _ => true end
  | PDict d => match d with [] => false | _ => true end
  end.

(** [x if x else d]. *)
Definition py_or (v d : pyval) : pyval := if py_truthy v then v else d.

Definition chars (s : string) : list pyval :=
  (λ c, PStr (String c EmptyString)) <$> list_ascii_of_string s.

Fixpoint assoc (k : string) (d : list (string * pyval)) : option pyval :=
  match d with
  | [] => None
  | (k', v) :: d' => if String.eqb k k' then Some v else assoc k d'
  end.

(** [v[i]] for a constant, non-negative [i].  Lists and strings are
    subscriptable by position; a JSON object has string keys only, so an
    int key is always missing. *)
Definition getitem (v : pyval) (i : nat) : py_result pyval :=
  match v with
  | PList l => match l !! i with Some x => Ok x | None => Raise IndexError end
  | PStr s => match chars s !! i with Some x => Ok x | None => Raise IndexError end
  | PDict _ => Raise (KeyError (PInt (Z.of_nat i)))
  | _ => Raise TypeError
  end.

(** [len(v)]. *)
Definition len (v : pyval) : py_result nat :=
  match v with
  | PList l => Ok (length l)
  | PStr s => Ok (String.length s)
  | PDict d => Ok (length d)
  | _ => Raise TypeError
  end.

(** [v.get(key, default)]: only a dict has the method. *)
Definition dict_get (v : pyval) (key : string) (default : pyval) : py_result pyval :=
  match v with
  | PDict d => Ok (from_option id default (assoc key d))
  | _ => Raise AttributeError
  end.

(** The elements a [for] loop draws from [v]. *)
Definition iter (v : pyval) : py_result (list pyval) :=
  match v with
  | PList l => Ok l
  | PStr s => Ok (chars s)
  | PDict d => Ok ((λ kv, PStr kv.1) <$> d)
  | _ => Raise TypeError
  end.

(** ** [class State] *)

Record State : Type := mkState {
  icao24 : pyval;
  callsign : pyval;
  origin_country : pyval;
  time_position : pyval;
  last_contact : pyval;
  longitude : pyval;
  latitude : pyval;
  geo_altitude : pyval;
  on_ground : pyval;
  velocity : pyval;
  true_track : pyval;
  vertical_rate : pyval;
  sensors : pyval;
  baro_altitude : pyval;
  squawk : pyval;
  spi : pyval;
  position_source : pyval
}.

(** [state_array[i] if len(state_array) > i else None]. *)
Definition getitem_if_longer (state_array : pyval) (i : nat) : py_result pyval :=
  n ← len state_array;
  if decide (i < n)%nat then getitem state_array i else Ok PNone.

(** [State.__init__], lines 71-88. *)
Definition State_init (state_array : pyval) : py_result State :=
  a0 ← getitem state_array 0;
  a1 ← getitem state_array 1;
  a2 ← getitem state_array 2;
  a3 ← getitem state_array 3;
  a4 ← getitem state_array 4;
  a5 ← getitem state_array 5;
  a6 ← getitem state_array 6;
  a7 ← getitem state_array 7;
  a8 ← getitem state_array 8;
  a9 ← getitem state_array 9;
  a10 ← getitem state_array 10;
  a11 ← getitem state_array 11;
  a12 ← getitem_if_longer state_array 12;
  a13 ← getitem_if_longer state_array 13;
  a14 ← getitem_if_longer state_array 14;
  a15 ← getitem_if_longer state_array 15;
  a16 ← getitem_if_longer state_array 16;
  Ok {| icao24 := a0; callsign := a1; origin_country := a2;
        time_position := a3; last_contact := a4; longitude := a5;
        latitude := a6; geo_altitude := a7; on_ground := a8;
        velocity := a9; true_track := a10; vertical_rate := a11;
        sensors := a12; baro_altitude := a13; squawk := a14;
        spi := a15; position_source := a16 |}.

(** ** [class StateVector] *)

Record StateVector : Type := mkStateVector {
  time : pyval;
  states : list State
}.

(** [StateVector.__init__], lines 62-68. *)
Definition StateVector_init (states_json : pyval) : py_result StateVector :=
  t ← dict_get states_json "time" (PInt 0);
  sts ← dict_get states_json "states" PNone;
  if py_truthy sts then
    items ← iter sts;
    l ← for_append State_init items [];
    Ok {| time := t; states := l |}
  else Ok {| time := t; states := [] |}.

(** ** What the program prints and does to the outside *)

(** A bounding box is the 4-tuple [(lamin, lamax, lomin, lomax)]. *)
Definition bbox : Type := pyval * pyval * pyval * pyval.

(** The four [print] calls of lines 52, 55, 58/118 and 112, with the
    values their f-strings interpolate. *)
Inductive message : Type :=
| AuthenticationFailed
| HttpError (status : Z) (body : string)
| ErrorFetchingData (e : exn)
| RetryingIn (wait_time : Z).

Inductive event : Type :=
| ApiCall (b : option bbox)
| Print (m : message)
| Sleep (seconds : Z).

(** ** [class OpenSkyApi] *)

Record OpenSkyApi : Type := mkOpenSkyApi {
  auth : option (string * string);
  base_url : string
}.

(** [OpenSkyApi.__init__], lines 17-19; an unset environment variable is
    [None]. *)
Definition OpenSkyApi_init (username password : option string) : OpenSkyApi :=
  {| auth :=
       match username, password with
       | Some u, Some p =>
           if negb (String.eqb u "") && negb (String.eqb p "")
           then Some (u, p) else None
       | _, _ => None
       end;
     base_url := "https://opensky-network.org/api" |}.

Record Request : Type := mkRequest {
  url : string;
  params : gmap string pyval;
  req_auth : option (string * string);
  headers : gmap string string;
  timeout : Z
}.

Record Response : Type := mkResponse {
  status_code : Z;
  text : string;
  json : py_result pyval      (* [response.json()] raises on a malformed body *)
}.

Section Fetcher.
(** The network and the clock are the environment of the fetcher:
    [requests.get] either raises (timeout, connection failure) or
    returns a response; [now] is [int(time.time())]. *)
Variable requests_get : Request → py_result Response.
Variable now : Z.

(** Lines 23-33.  [time_secs] is an int, [icao24] an optional string
    and [bbox] an optional 4-tuple, which is never empty. *)
Definition get_states_params (time_secs : Z) (icao24 : option string)
    (bb : option bbox) : gmap string pyval :=
  let params : gmap string pyval :=
    {[ "time" := PInt (if decide (time_secs = 0) then now else time_secs) ]} in
  let params :=
    match icao24 with
    | Some s => if String.eqb s "" then params else <["icao24" := PStr s]> params
    | None => params
    end in
  match bb with
  | Some (lamin, lamax, lomin, lomax) =>
      <["lomax" := lomax]> (<["lomin" := lomin]>
        (<["lamax" := lamax]> (<["lamin" := lamin]> params)))
  | None => params
  end.

(** The request of lines 35-47. *)
Definition get_states_request (self : OpenSkyApi) (p : gmap string pyval)
  : Request :=
  {| url := base_url self +:+ "/states/all";
     params := p;
     req_auth := auth self;
     headers := {[ "User-Agent" := "Mozilla/5.0";
                   "Accept" := "application/json" ]};
     timeout := 15 |}.

(** The body of the [try] block, lines 41-56: what it prints and what
    it returns or raises. *)
Definition get_states_try (self : OpenSkyApi) (p : gmap string pyval)
  : list message * py_result (option StateVector) :=
  match requests_get (get_states_request self p) with
  | Raise e => ([], Raise e)
  | Ok response =>
      if (status_code response =? 200)%Z then
        ([], j ← json response; sv ← StateVector_init j; Ok (Some sv))
      else if (status_code response =? 401)%Z then
        ([AuthenticationFailed], Ok None)
      else
        ([HttpError (status_code response) (text response)], Ok None)
  end.

(** [OpenSkyApi.get_states], lines 21-59. *)
Definition OpenSkyApi_get_states (self : OpenSkyApi) (time_secs : Z)
    (icao24 : option string) (bb : option bbox)
  : list message * py_result (option StateVector) :=
  let p := get_states_params time_secs icao24 bb in
  let '(out, r) := get_states_try self p in
  match r with
  | Ok v => (out, Ok v)
  | Raise e => (out ++ [ErrorFetchingData e], Ok None)
  end.
End Fetcher.

(** ** The retry wrapper [get_states] *)

Inductive control : Type :=
| Continue
| Return (r : option (list State)).

Record run : Type := mkRun {
  run_result : option (list State);   (* [{'states': ...}] or [None] *)
  run_trace : list event;
  run_attempts : nat                  (* loop iterations entered *)
}.

Section Retry.
(** The module-level [api].  [api_get_states i b] is what the call
    [api.get_states(bbox=b)] made in attempt [i] prints and returns or
    raises.  An attempt makes at most one call, and if the attempt [i]
    makes one then so did every attempt before it, so the attempt index
    is also the index of the call. *)
Variable api_get_states :
  nat → option bbox → list message * py_result (option StateVector).

(** [bounds[k]]. *)
Definition bounds_item (bounds : gmap string pyval) (k : string) : py_result pyval :=
  match bounds !! k with
  | Some v => Ok v
  | None => Raise (KeyError (PStr k))
  end.

(** Lines 97-102. *)
Definition make_bbox (bounds : gmap string pyval) : py_result bbox :=
  lamin ← bounds_item bounds "lamin";
  lamax ← bounds_item bounds "lamax";
  lomin ← bounds_item bounds "lomin";
  lomax ← bounds_item bounds "lomax";
  Ok (lamin, lamax, lomin, lomax).

(** The argument of the call, lines 96-105: [None] and the empty dict
    are false and give the call without a bounding box. *)
Definition call_argument (bounds : option (gmap string pyval))
  : py_result (option bbox) :=
  match bounds with
  | Some d =>
      if bool_decide (size d = 0%nat) then Ok None
      else b ← make_bbox d; Ok (Some b)
  | None => Ok None
  end.

(** Lines 96-105: build the argument and call the fetcher. *)
Definition fetch (bounds : option (gmap string pyval)) (attempt : nat)
  : list event * py_result (option StateVector) :=
  match call_argument bounds with
  | Raise e => ([], Raise e)
  | Ok b =>
      let '(out, r) := api_get_states attempt b in
      (ApiCall b :: (Print <$> out), r)
  end.

(** [states and states.states], line 107. *)
Definition found (r : option StateVector) : option (list State) :=
  match r with
  | Some sv => match states sv with [] => None | l => Some l end
  | None => None
  end.

(** One iteration of the loop, lines 95-122. *)
Definition attempt_body (bounds : option (gmap string pyval))
    (max_retries : Z) (attempt : nat) : list event * control :=
  let '(ev, r) := fetch bounds attempt in
  match r with
  | Ok sv =>
      match found sv with
      | Some l => (ev, Return (Some l))
      | None =>
          if (Z.of_nat attempt <? max_retries - 1)%Z then
            let wait_time := Z.min (2 ^ Z.of_nat attempt) 60 in
            (ev ++ [Print (RetryingIn wait_time); Sleep wait_time], Continue)
          else (ev, Return None)
      end
  | Raise e =>
      if (Z.of_nat attempt <? max_retries - 1)%Z then
        (ev ++ [Print (ErrorFetchingData e); Sleep 5], Continue)
      else (ev ++ [Print (ErrorFetchingData e)], Return None)
  end.

(** [for attempt in range(max_retries)], with [remaining] iterations
    left; line 123 is the exhausted loop. *)
Fixpoint get_states_loop (bounds : option (gmap string pyval))
    (max_retries : Z) (remaining attempt : nat) : run :=
  match remaining with
  | O => {| run_result := None; run_trace := []; run_attempts := 0%nat |}
  | S remaining' =>
      let '(ev, c) := attempt_body bounds max_retries attempt in
      match c with
      | Return r => {| run_result := r; run_trace := ev; run_attempts := 1%nat |}
      | Continue =>
          let rest := get_states_loop bounds max_retries remaining' (S attempt) in
          {| run_result := run_result rest;
             run_trace := ev ++ run_trace rest;
             run_attempts := S (run_attempts rest) |}
      end
  end.

(** [get_states(bounds, max_retries)], lines 92-123. *)
Definition get_states (bounds : option (gmap string pyval)) (max_retries : Z) : run :=
  get_states_loop bounds max_retries (Z.to_nat max_retries) 0.
End Retry.

(** The sleeps and the fetcher calls of a trace, in order. *)
Definition sleeps (t : list event) : list Z :=
  omap (λ e, match e with Sleep s => Some s | _ => None end) t.

Definition calls (t : list event) : list (option bbox) :=
  omap (λ e, match e with ApiCall b => Some b | _ => None end) t.

(** ** [create_map]: region presets, map layers, statistics *)

(** The [bounds] table of lines 208-213. *)
Definition region_bounds : gmap string (option (gmap string pyval)) :=
  {[ "world" := None;
     "europe" := Some {[ "lamin" := PFloat (Qc_of_Z 35);
                         "lomin" := PFloat (Qc_of_Z (-15));
                         "lamax" := PFloat (Qc_of_Z 60);
                         "lomax" := PFloat (Qc_of_Z 40) ]};
     "north_america" := Some {[ "lamin" := PFloat (Qc_of_Z 25);
                                "lomin" := PFloat (Qc_of_Z (-130));
                                "lamax" := PFloat (Qc_of_Z 50);
                                "lomax" := PFloat (Qc_of_Z (-60)) ]};
     "asia" := Some {[ "lamin" := PFloat (Qc_of_Z 10);
                       "lomin" := PFloat (Qc_of_Z 60);
                       "lamax" := PFloat (Qc_of_Z 50);
                       "lomax" := PFloat (Qc_of_Z 150) ]} ]}.

(** [bounds.get(region)]: an unknown region gives [None]. *)
Definition bounds_get (region : string) : option (gmap string pyval) :=
  default None (region_bounds !! region).

(** The values the popup f-string of lines 236-244 interpolates, in the
    order Callsign, Altitude (followed by [m]), Velocity (followed by
    [m/s]) and Origin; the HTML around them is fixed text.  An
    interpolated [None] is rendered as the text [None]. *)
Record Popup : Type := mkPopup {
  popup_callsign : pyval;
  popup_altitude : pyval;
  popup_velocity : pyval;
  popup_origin : pyval
}.

(** A [folium.Marker]: its location, its popup, and the angle of the
    [rotate(...deg)] of its icon. *)
Record Marker : Type := mkMarker {
  location : pyval * pyval;
  popup : Popup;
  icon_rotation : pyval
}.

(** A heat point is the list [[lat, lon, 1]]. *)
Definition HeatPoint : Type := pyval * pyval * Z.

(** The folium map: the markers added to it, in order, and the data of
    its heat-map layer once that is added. *)
Record Map : Type := mkMap {
  markers : list Marker;
  heatmap : option (list HeatPoint)
}.

Definition empty_map : Map := {| markers := []; heatmap := None |}.

Definition marker_of (state : State) : Marker :=
  {| location := (latitude state, longitude state);
     popup := {| popup_callsign := py_or (callsign state) (PStr "N/A");
                 popup_altitude := py_or (geo_altitude state) (PStr "N/A");
                 popup_velocity := py_or (velocity state) (PStr "N/A");
                 popup_origin := origin_country state |};
     icon_rotation := py_or (true_track state) (PInt 0) |}.

Definition heat_point_of (state : State) : HeatPoint :=
  (latitude state, longitude state, 1).

(** The body of the loop of lines 227-255, on the pair of the markers
    added so far and [heat_data]. *)
Definition add_state (acc : list Marker * list HeatPoint) (state : State)
  : list Marker * list HeatPoint :=
  if py_truthy (latitude state) && py_truthy (longitude state) then
    (acc.1 ++ [marker_of state], acc.2 ++ [heat_point_of state])
  else acc.

(** Lines 225-257. *)
Definition map_layers (sts : list State) : Map :=
  let '(ms, heat_data) := foldl add_state ([], []) sts in
  {| markers := ms; heatmap := Some heat_data |}.

(** *** Statistics *)

(** What [np.mean] returns: NaN for an empty list, else a number.  The
    mean is taken as the exact mean of the values. *)
Inductive np_float : Type :=
| NaN
| Finite (q : Qc).

(** The conversion of a list element to a float by [np.mean]; a string or
    a container is not a number. *)
Definition to_float (v : pyval) : py_result Qc :=
  match v with
  | PInt n => Ok (Qc_of_Z n)
  | PFloat q => Ok q
  | PBool b => Ok (if b then 1%Qc else 0%Qc)
  | _ => Raise TypeError
  end.

Definition np_mean (xs : list pyval) : py_result np_float :=
  qs ← mapM to_float xs;
  Ok match qs with
     | [] => NaN
     | _ => Finite (foldr Qcplus 0%Qc qs / Qc_of_Z (Z.of_nat (length qs)))%Qc
     end.

(** Rounding to the nearest integer, ties to even, as [format] does. *)
Definition round_half_even (q : Qc) : Z :=
  let n := Qnum q in
  let d := Z.pos (Qden q) in
  let f := n `div` d in
  let twice := 2 * (n `mod` d) in
  if twice <? d then f
  else if d <? twice then f + 1
  else if Z.even f then f else f + 1.

Definition string_of_Z (z : Z) : string := NilZero.string_of_int (Z.to_int z).

(** [f"{x:.0f}"]. *)
Definition format_0f (x : np_float) : string :=
  match x with
  | NaN => "nan"
  | Finite q =>
      let r := round_half_even q in
      if (r =? 0) && (Qnum q <? 0) then "-0" else string_of_Z r
  end.

(** The key under which a value sits in a [set]: [True == 1 == 1.0]. A
    list or a dict is unhashable. *)
Inductive hashed : Type :=
| HNone
| HNum (q : Qc)
| HStr (s : string).

#[global] Instance hashed_eq_dec : EqDecision hashed.
Proof. solve_decision. Defined.

Definition py_hash (v : pyval) : py_result hashed :=
  match v with
  | PNone => Ok HNone
  | PBool b => Ok (HNum (if b then 1%Qc else 0%Qc))
  | PInt n => Ok (HNum (Qc_of_Z n))
  | PFloat q => Ok (HNum q)
  | PStr s => Ok (HStr s)
  | PList _ | PDict _ => Raise TypeError
  end.

(** [[f(s) for s in states if p(s)]]. *)
Definition comprehension (f : State → pyval) (p : State → bool)
    (sts : list State) : list pyval :=
  f <$> filter (λ s, p s = true) sts.

Definition is_not_None (v : pyval) : bool :=
  match v with PNone => false | _ => true end.

(** The values interpolated into the statistics text of lines 263-270:
    [Total Aircraft: {total_aircraft}], [Countries: {countries}],
    [Average Altitude: {avg_altitude:.0f}m] and the time stamp. *)
Record Statistics : Type := mkStatistics {
  total_aircraft : nat;
  countries : nat;
  average_altitude : string;
  last_updated : string
}.

(** Lines 259-270; [now] is [datetime.now().strftime(...)]. *)
Definition statistics (now : string) (sts : list State) : py_result Statistics :=
  let total := length sts in
  keys ← mapM py_hash (comprehension origin_country (λ s, py_truthy (origin_country s)) sts);
  let n_countries := length (remove_dups keys) in
  avg ← match sts with
        | [] => Ok (Finite 0%Qc)
        | _ => np_mean (comprehension geo_altitude (λ s, is_not_None (geo_altitude s)) sts)
        end;
  Ok {| total_aircraft := total;
        countries := n_countries;
        average_altitude := format_0f avg +:+ "m";
        last_updated := now |}.

(** The statistics output of [create_map]: the notice of line 221 or the
    statistics text. *)
Inductive StatsText : Type :=
| NoDataAvailable
| RealTimeStatistics (s : Statistics).

Section CreateMap.
Variable api_get_states :
  nat → option bbox → list message * py_result (option StateVector).
Variable now : string.

(** [create_map(region)], lines 200-272, as far as it is data: the
    events of the fetch, then the data handed to the map and the
    statistics text, or the exception of the statistics.  The rendering
    calls ([folium.Marker], [plugins.HeatMap], [m._repr_html_] and
    [create_monitoring_dashboard]) are library code outside the model:
    what they return and whether they raise is not described here, so
    an [Ok] is no statement that the program renders. *)
Definition create_map (region : string)
  : list event * py_result (Map * StatsText) :=
  let data := get_states api_get_states (bounds_get region) 3 in
  (run_trace data,
   match run_result data with
   | None | Some [] => Ok (empty_map, NoDataAvailable)
   | Some sts =>
       let m := map_layers sts in
       stats ← statistics now sts;
       Ok (m, RealTimeStatistics stats)
   end).
End CreateMap.

(** ** Vocabulary of the properties *)

(** What a field read from the fixed index [i] of the array [l] holds:
    the element when the array reaches that far, [None] otherwise. *)
Definition extended_at (l : list pyval) (i : nat) (v : pyval) : Prop :=
  ((i < length l)%nat → l !! i = Some v) ∧ ((length l ≤ i)%nat → v = PNone).

(** The sleep that follows the failed attempt [i] when another attempt
    is left: the capped power of two of line 111 when the fetcher
    returned, the constant of line 120 when the [try] block raised. *)
Definition exponential_backoff (attempt : nat) : Z :=
  Z.min (2 ^ Z.of_nat attempt) 60.

Definition backoff {A} (r : py_result A) (attempt : nat) : Z :=
  match r with
  | Ok _ => exponential_backoff attempt
  | Raise _ => 5
  end.

(** The fetcher [api] with every snapshot that has an empty record list
    replaced by the no-data sentinel. *)
Definition empty_as_no_data
    (api : nat → option bbox → list message * py_result (option StateVector))
  : nat → option bbox → list message * py_result (option StateVector) :=
  λ i b,
    let '(out, r) := api i b in
    (out, match r with
          | Ok (Some sv) => match states sv with [] => Ok None | _ => Ok (Some sv) end
          | other => other
          end).

(** The bounding box [(35.0, 60.0, -15.0, 40.0)]. *)
Definition europe_bbox : bbox :=
  (PFloat (Qc_of_Z 35), PFloat (Qc_of_Z 60), PFloat (Qc_of_Z (-15)),
   PFloat (Qc_of_Z 40)).

(** A record is drawn on the map when both coordinates are true. *)
Definition drawn (s : State) : bool :=
  py_truthy (latitude s) && py_truthy (longitude s).

(** What the popup or the icon shows for the field value [v], with the
    placeholder [d]: [d] when the field is [None], the value itself
    when it is true. *)
Definition shows (d v shown : pyval) : Prop :=
  (v = PNone → shown = d) ∧ (py_truthy v = true → shown = v).

(** ** Sample inputs *)

(** A raw state array as the provider sends it, cut after index 11. *)
Definition array12 : list pyval :=
  [ PStr "3c6444"; PStr "DLH9LF  "; PStr "Germany"; PInt 1700000000;
    PInt 1700000001; PFloat (Qc_of_Z 8); PFloat (Qc_of_Z 50);
    PFloat (Qc_of_Z 10000); PBool false; PFloat (Qc_of_Z 230);
    PFloat (Qc_of_Z 90); PFloat (Qc_of_Z 0) ].

Definition array11 : list pyval := take 11 array12.

(** The same record with the extended indices 12 to 14 present. *)
Definition array15 : list pyval :=
  array12 ++ [ PNone; PFloat (Qc_of_Z 9900); PStr "1000" ].

(** ... and with three elements beyond index 16. *)
Definition array20 : list pyval :=
  array15 ++ [ PBool false; PInt 0; PInt 7; PStr "extra"; PNone ].

(** The record that [array12] is mapped to. *)
Definition state12 : State :=
  mkState (PStr "3c6444") (PStr "DLH9LF  ") (PStr "Germany") (PInt 1700000000)
    (PInt 1700000001) (PFloat (Qc_of_Z 8)) (PFloat (Qc_of_Z 50))
    (PFloat (Qc_of_Z 10000)) (PBool false) (PFloat (Qc_of_Z 230))
    (PFloat (Qc_of_Z 90)) (PFloat (Qc_of_Z 0)) PNone PNone PNone PNone PNone.

(** [state12] without its country of origin, on the equator, and without
    its altitude. *)
Definition state_no_origin : State :=
  mkState (PStr "3c6444") (PStr "DLH9LF  ") PNone (PInt 1700000000)
    (PInt 1700000001) (PFloat (Qc_of_Z 8)) (PFloat (Qc_of_Z 50))
    (PFloat (Qc_of_Z 10000)) (PBool false) (PFloat (Qc_of_Z 230))
    (PFloat (Qc_of_Z 90)) (PFloat (Qc_of_Z 0)) PNone PNone PNone PNone PNone.

Definition state_equator : State :=
  mkState (PStr "3c6444") (PStr "DLH9LF  ") (PStr "Germany") (PInt 1700000000)
    (PInt 1700000001) (PFloat (Qc_of_Z 8)) (PFloat (Qc_of_Z 0))
    (PFloat (Qc_of_Z 10000)) (PBool false) (PFloat (Qc_of_Z 230))
    (PFloat (Qc_of_Z 90)) (PFloat (Qc_of_Z 0)) PNone PNone PNone PNone PNone.

Definition state_altitude (altitude : pyval) : State :=
  mkState (PStr "3c6444") (PStr "DLH9LF  ") (PStr "Germany") (PInt 1700000000)
    (PInt 1700000001) (PFloat (Qc_of_Z 8)) (PFloat (Qc_of_Z 50))
    altitude (PBool false) (PFloat (Qc_of_Z 230))
    (PFloat (Qc_of_Z 90)) (PFloat (Qc_of_Z 0)) PNone PNone PNone PNone PNone.

(** Fetchers: one that never has data, one that always raises, one that
    raises in the first attempt and has no data afterwards, and one that
    answers an empty record list first and one record afterwards. *)
Definition api_no_data
  : nat → option bbox → list message * py_result (option StateVector) :=
  λ _ _, ([], Ok None).

Definition api_raising
  : nat → option bbox → list message * py_result (option StateVector) :=
  λ _ _, ([], Raise (RequestException "connection reset")).

Definition api_raise_then_no_data
  : nat → option bbox → list message * py_result (option StateVector) :=
  λ i _, match i with
         | O => ([], Raise (RequestException "connection reset"))
         | S _ => ([], Ok None)
         end.

Definition api_empty_then_data
  : nat → option bbox → list message * py_result (option StateVector) :=
  λ i _, match i with
         | O => ([], Ok (Some {| time := PInt 1700000000; states := [] |}))
         | S _ => ([], Ok (Some {| time := PInt 1700000002; states := [state12] |}))
         end.

(** ** The module-level client and the start-up warning *)

(** The truth value of an environment variable read by [os.getenv]. *)
Definition env_truthy (v : option string) : bool :=
  match v with
  | Some s => negb (String.eqb s "")
  | None => false
  end.

(** Line 341: [not USERNAME or not PASSWORD], the condition under which
    the anonymous-access warning is printed. *)
Definition warns_anonymous (username password : option string) : bool :=
  negb (env_truthy username) || negb (env_truthy password).

(** Line 90, [api = OpenSkyApi(USERNAME, PASSWORD)], as the fetcher that
    the retry wrapper calls: [api.get_states(bbox=b)] leaves [time_secs]
    at 0 and [icao24] at [None].  The request of the attempt [i] is
    answered by [requests_get i], at the clock reading [now i]. *)
Definition module_api (requests_get : nat → Request → py_result Response)
    (now : nat → Z) (username password : option string)
  : nat → option bbox → list message * py_result (option StateVector) :=
  λ i b, OpenSkyApi_get_states (requests_get i) (now i)
           (OpenSkyApi_init username password) 0 None b.

(** ** More vocabulary *)

(** The attempt [i] succeeds with the records [l], or fails. *)
Definition succeeds
    (api : nat → option bbox → list message * py_result (option StateVector))
    (bounds : option (gmap string pyval)) (i : nat) (l : list State) : Prop :=
  ∃ sv, (fetch api bounds i).2 = Ok sv ∧ found sv = Some l.

Definition fails
    (api : nat → option bbox → list message * py_result (option StateVector))
    (bounds : option (gmap string pyval)) (i : nat) : Prop :=
  ∀ sv, (fetch api bounds i).2 = Ok sv → found sv = None.


(** A raw state array is long enough for [State.__init__]. *)
Definition long_array (v : pyval) : Prop :=
  ∃ l, v = PList l ∧ (12 ≤ length l)%nat.

(** Sample responses: a 200 answer with two records, and one with a
    record that is too short. *)
Definition body_two_records : pyval :=
  PDict [ ("time", PInt 1700000000);
          ("states", PList [ PList array12; PList array15 ]) ].

Definition body_short_record : pyval :=
  PDict [ ("time", PInt 1700000000);
          ("states", PList [ PList array12; PList array11 ]) ].

Definition response_of (status : Z) (body : py_result pyval) : Response :=
  {| status_code := status; text := "body"; json := body |}.

(** * Properties *)

(** ** The state mapping *)

Lemma getitem_if_longer_list (l : list pyval) (i : nat) :
  getitem_if_longer (PList l) i = Ok (default PNone (l !! i)).
Proof.
  unfold getitem_if_longer; simpl. case_decide as Hi.
  - apply lookup_lt_is_Some_2 in Hi as [x Hx]. by rewrite Hx.
  - rewrite lookup_ge_None_2; [done | lia].
Qed.

Lemma extended_at_default (l : list pyval) (i : nat) :
  extended_at l i (default PNone (l !! i)).
Proof.
  split; intros Hi.
  - apply lookup_lt_is_Some_2 in Hi as [x Hx]. by rewrite Hx.
  - by rewrite lookup_ge_None_2.
Qed.

(** On an array that reaches index 11 the constructor returns, and each
    field is the element at its index, or [None] past the end. *)
Lemma State_init_list (l : list pyval) :
  (12 ≤ length l)%nat →
  ∃ a0 a1 a2 a3 a4 a5 a6 a7 a8 a9 a10 a11,
    take 12 l = [a0; a1; a2; a3; a4; a5; a6; a7; a8; a9; a10; a11] ∧
    State_init (PList l) =
      Ok (mkState a0 a1 a2 a3 a4 a5 a6 a7 a8 a9 a10 a11
            (default PNone (l !! 12%nat)) (default PNone (l !! 13%nat))
            (default PNone (l !! 14%nat)) (default PNone (l !! 15%nat))
            (default PNone (l !! 16%nat))).
Proof.
  intros Hlen.
  do 12 (destruct l as [|? l]; [simpl in Hlen; lia|]).
  do 12 eexists. split; [reflexivity|].
  unfold State_init. rewrite !getitem_if_longer_list. reflexivity.
Qed.

(** C2, as amended: an array of fewer than 12 elements makes
    [State.__init__] raise [IndexError]; the mandatory indices are 0
    to 11.  Every array of exactly 12 elements is mapped without an
    exception: the fields of the indices 0 to 11 are the elements at
    those indices, and [sensors], [baro_altitude], [squawk], [spi] and
    [position_source] are [None]. *)
Theorem State_init_short_raises (l : list pyval) :
  ((length l < 12)%nat → State_init (PList l) = Raise IndexError) ∧
  (length l = 12%nat →
   ∃ s, State_init (PList l) = Ok s ∧
     l !! 0%nat = Some (icao24 s) ∧ l !! 1%nat = Some (callsign s) ∧
     l !! 2%nat = Some (origin_country s) ∧ l !! 3%nat = Some (time_position s) ∧
     l !! 4%nat = Some (last_contact s) ∧ l !! 5%nat = Some (longitude s) ∧
     l !! 6%nat = Some (latitude s) ∧ l !! 7%nat = Some (geo_altitude s) ∧
     l !! 8%nat = Some (on_ground s) ∧ l !! 9%nat = Some (velocity s) ∧
     l !! 10%nat = Some (true_track s) ∧ l !! 11%nat = Some (vertical_rate s) ∧
     sensors s = PNone ∧ baro_altitude s = PNone ∧ squawk s = PNone ∧
     spi s = PNone ∧ position_source s = PNone).
Proof.
  split; intros Hlen.
  - do 12 (destruct l as [|? l]; [reflexivity|]).
    simpl in Hlen. lia.
  - do 12 (destruct l as [|? l]; [simpl in Hlen; lia|]).
    destruct l as [|? l]; [|simpl in Hlen; lia].
    eexists. split; [reflexivity|]. simpl. split_and!; reflexivity.
Qed.

Lemma State_init_short_raises_witness :
  ((length array11 < 12)%nat ∧ State_init (PList array11) = Raise IndexError) ∧
  (length array12 = 12%nat ∧
   ∃ s, State_init (PList array12) = Ok s ∧
        array12 !! 0%nat = Some (icao24 s) ∧
        array12 !! 11%nat = Some (vertical_rate s) ∧
        sensors s = PNone ∧ baro_altitude s = PNone ∧ squawk s = PNone ∧
        spi s = PNone ∧ position_source s = PNone).
Proof.
  split.
  - split; [simpl; lia|].
    apply (proj1 (State_init_short_raises array11)). simpl. lia.
  - split; [reflexivity|].
    destruct (proj2 (State_init_short_raises array12) eq_refl)
      as (s & Hs & H0 & _ & _ & _ & _ & _ & _ & _ & _ & _ & _ & H11 & Hext).
    exists s. split_and!; [exact Hs | exact H0 | exact H11 | apply Hext ..].
Defined.

(** C2, as stated, fails at length 12: index 12 is guarded by the length
    test of line 84, so the 12-element array is mapped, with [sensors]
    and the other extended fields [None]. *)
Lemma State_init_length12_returns :
  (length array12 < 13)%nat ∧
  ∃ s, State_init (PList array12) = Ok s ∧ sensors s = PNone ∧
       baro_altitude s = PNone ∧ squawk s = PNone ∧ spi s = PNone ∧
       position_source s = PNone.
Proof.
  split; [simpl; lia|].
  eexists. split_and!; reflexivity.
Qed.

(** C3: an array of 13 to 17 elements is mapped without an exception;
    the fields of indices 0 to 11 are the elements at those indices, and
    each extended field is the element at its index when the array
    reaches it and [None] when it does not. *)
Theorem State_init_13_to_17 (l : list pyval) :
  (13 ≤ length l ≤ 17)%nat →
  ∃ s, State_init (PList l) = Ok s ∧
    l !! 0%nat = Some (icao24 s) ∧ l !! 1%nat = Some (callsign s) ∧
    l !! 2%nat = Some (origin_country s) ∧ l !! 3%nat = Some (time_position s) ∧
    l !! 4%nat = Some (last_contact s) ∧ l !! 5%nat = Some (longitude s) ∧
    l !! 6%nat = Some (latitude s) ∧ l !! 7%nat = Some (geo_altitude s) ∧
    l !! 8%nat = Some (on_ground s) ∧ l !! 9%nat = Some (velocity s) ∧
    l !! 10%nat = Some (true_track s) ∧ l !! 11%nat = Some (vertical_rate s) ∧
    extended_at l 12 (sensors s) ∧ extended_at l 13 (baro_altitude s) ∧
    extended_at l 14 (squawk s) ∧ extended_at l 15 (spi s) ∧
    extended_at l 16 (position_source s).
Proof.
  intros [Hlo Hhi].
  destruct (State_init_list l) as (a0&a1&a2&a3&a4&a5&a6&a7&a8&a9&a10&a11&Htake&->);
    [lia|].
  eexists. split; [reflexivity|]. simpl.
  assert (∀ i, (i < 12)%nat → l !! i = take 12 l !! i) as Hl
    by (intros i Hi; by rewrite lookup_take_lt).
  rewrite !Hl, Htake by lia. simpl.
  repeat split; try reflexivity; apply extended_at_default.
Qed.

Lemma State_init_13_to_17_witness :
  (13 ≤ length array15 ≤ 17)%nat ∧
  ∃ s, State_init (PList array15) = Ok s ∧
       sensors s = PNone ∧ baro_altitude s = PFloat (Qc_of_Z 9900) ∧
       squawk s = PStr "1000" ∧ spi s = PNone ∧ position_source s = PNone.
Proof.
  assert (13 ≤ length array15 ≤ 17)%nat as Hlen by (simpl; lia).
  split; [exact Hlen|].
  destruct (State_init_13_to_17 array15 Hlen) as (s & Hs & _).
  exists s. split; [exact Hs|].
  injection Hs as <-. repeat split; reflexivity.
Defined.

(** C10: [State.__init__] reads the indices 0 to 16 only.  On every
    array of 12 or more elements, also one longer than 17, it returns,
    and an array with the same first 17 elements gives the same record:
    what lies beyond index 16 reaches no field. *)
Theorem State_init_ignores_tail (l : list pyval) :
  (12 ≤ length l)%nat →
  (∃ s, State_init (PList l) = Ok s) ∧
  (∀ l', take 17 l' = take 17 l → State_init (PList l') = State_init (PList l)).
Proof.
  intros Hlen.
  destruct (State_init_list l Hlen)
    as (a0&a1&a2&a3&a4&a5&a6&a7&a8&a9&a10&a11&Htake&Hl).
  split; [eauto|]. intros l' H17. rewrite Hl.
  assert (∀ i, (i < 17)%nat → l' !! i = l !! i) as Hlook.
  { intros i Hi.
    rewrite <- (lookup_take_lt l' 17 i), <- (lookup_take_lt l 17 i) by lia.
    by rewrite H17. }
  assert (12 ≤ length l')%nat as Hlen'.
  { apply (f_equal length) in H17. rewrite !length_take in H17. lia. }
  destruct (State_init_list l' Hlen')
    as (b0&b1&b2&b3&b4&b5&b6&b7&b8&b9&b10&b11&Htake'&->).
  assert (take 12 l' = take 12 l) as Heq.
  { assert (∀ k : list pyval, take 12 k = take 12 (take 17 k)) as Hk
      by (intros k; by rewrite take_take).
    by rewrite (Hk l'), (Hk l), H17. }
  rewrite Heq, Htake in Htake'.
  injection Htake' as <- <- <- <- <- <- <- <- <- <- <- <-.
  rewrite !Hlook by lia. reflexivity.
Qed.

Lemma State_init_ignores_tail_witness :
  (12 ≤ length array20)%nat ∧
  (∃ s, State_init (PList array20) = Ok s) ∧
  State_init (PList (take 17 array20)) = State_init (PList array20).
Proof.
  assert (12 ≤ length array20)%nat as Hlen by (simpl; lia).
  split; [exact Hlen|].
  destruct (State_init_ignores_tail array20 Hlen) as [Hret Htail].
  split; [exact Hret|].
  apply Htail. reflexivity.
Defined.

(** ** The snapshot fetcher *)

(** C5: whatever the arguments, the credentials and the outcome of the
    request, [OpenSkyApi.get_states] returns and does not raise.  It
    returns [None] when [requests.get] raises, when the status is not
    200 (401 included), and when the body of a 200 response is not valid
    JSON; a snapshot is returned only from a 200 response, and it is the
    one built from the decoded body. *)
Theorem OpenSkyApi_get_states_never_raises
    (requests_get : Request → py_result Response) (now : Z)
    (self : OpenSkyApi) (time_secs : Z) (icao24 : option string)
    (bb : option bbox) :
  let request :=
    get_states_request self (get_states_params now time_secs icao24 bb) in
  ∃ out r,
    OpenSkyApi_get_states requests_get now self time_secs icao24 bb = (out, Ok r) ∧
    (∀ e, requests_get request = Raise e →
          r = None ∧ out = [ErrorFetchingData e]) ∧
    (∀ response, requests_get request = Ok response →
          status_code response ≠ 200 → r = None) ∧
    (∀ response, requests_get request = Ok response →
          status_code response = 401 → out = [AuthenticationFailed]) ∧
    (∀ response e, requests_get request = Ok response →
          json response = Raise e → r = None) ∧
    (∀ sv, r = Some sv →
          ∃ response j, requests_get request = Ok response ∧
            status_code response = 200 ∧ json response = Ok j ∧
            StateVector_init j = Ok sv).
Proof.
  intros request. unfold OpenSkyApi_get_states, get_states_try.
  fold request. destruct (requests_get request) as [response|e] eqn:Hget.
  - destruct (status_code response =? 200) eqn:H200;
      [apply Z.eqb_eq in H200 | apply Z.eqb_neq in H200].
    + destruct (json response) as [j|e] eqn:Hjson; simpl;
        [destruct (StateVector_init j) as [sv|e] eqn:Hsv; simpl|];
        (do 2 eexists; split; [reflexivity|]);
        split_and!; intros; simplify_eq; eauto 10; exfalso; (lia || congruence).
    + destruct (status_code response =? 401) eqn:H401;
        [apply Z.eqb_eq in H401 | apply Z.eqb_neq in H401];
        (do 2 eexists; split; [reflexivity|]);
        split_and!; intros; simplify_eq; eauto; exfalso; (lia || congruence).
  - do 2 eexists. split; [reflexivity|].
    split_and!; intros; simplify_eq; eauto.
Qed.

(** ** The retry wrapper *)

Section RetryProperties.
Context (api : nat → option bbox → list message * py_result (option StateVector)).
Context (bounds : option (gmap string pyval)) (max_retries : Z).

Lemma sleeps_app (t1 t2 : list event) : sleeps (t1 ++ t2) = sleeps t1 ++ sleeps t2.
Proof. apply omap_app. Qed.

Lemma calls_app (t1 t2 : list event) : calls (t1 ++ t2) = calls t1 ++ calls t2.
Proof. apply omap_app. Qed.

Lemma sleeps_prints (out : list message) : sleeps (Print <$> out) = [].
Proof. induction out as [|m out IH]; [done | exact IH]. Qed.

Lemma calls_prints (out : list message) : calls (Print <$> out) = [].
Proof. induction out as [|m out IH]; [done | exact IH]. Qed.

(** The fetch of one attempt never sleeps, and makes exactly one call
    when the argument can be built. *)
Lemma fetch_sleeps (i : nat) : sleeps (fetch api bounds i).1 = [].
Proof.
  unfold fetch. destruct (call_argument bounds) as [b|e]; [|done].
  destruct (api i b) as [out r]. simpl. apply sleeps_prints.
Qed.

Lemma fetch_calls (i : nat) (b : option bbox) :
  call_argument bounds = Ok b → calls (fetch api bounds i).1 = [b].
Proof.
  intros Hb. unfold fetch. rewrite Hb.
  destruct (api i b) as [out r]. simpl. by rewrite calls_prints.
Qed.

Lemma fetch_result (i : nat) (b : option bbox) :
  call_argument bounds = Ok b → (fetch api bounds i).2 = (api i b).2.
Proof.
  intros Hb. unfold fetch. rewrite Hb. by destruct (api i b).
Qed.

(** One iteration: it sleeps only when the loop continues, and then
    once, for [backoff] seconds. *)
Lemma attempt_body_sleeps (i : nat) :
  sleeps (attempt_body api bounds max_retries i).1 =
    match (attempt_body api bounds max_retries i).2 with
    | Continue => [backoff (fetch api bounds i).2 i]
    | Return _ => []
    end.
Proof.
  unfold attempt_body. pose proof (fetch_sleeps i) as Hf.
  destruct (fetch api bounds i) as [ev [sv|e]]; simpl in *.
  - destruct (found sv); simpl; [done|].
    destruct (Z.of_nat i <? max_retries - 1); simpl; [|done].
    by rewrite sleeps_app, Hf.
  - destruct (Z.of_nat i <? max_retries - 1); simpl;
      by rewrite sleeps_app, Hf.
Qed.

Lemma attempt_body_calls (i : nat) :
  calls (attempt_body api bounds max_retries i).1 = calls (fetch api bounds i).1.
Proof.
  unfold attempt_body.
  destruct (fetch api bounds i) as [ev [sv|e]]; simpl.
  - destruct (found sv); simpl; [done|].
    destruct (Z.of_nat i <? max_retries - 1); simpl; [|done].
    rewrite calls_app. simpl. apply app_nil_r.
  - destruct (Z.of_nat i <? max_retries - 1); simpl;
      rewrite calls_app; simpl; apply app_nil_r.
Qed.

(** The loop, unfolded once. *)
Lemma get_states_loop_S (k a : nat) :
  get_states_loop api bounds max_retries (S k) a =
    match (attempt_body api bounds max_retries a).2 with
    | Return r =>
        {| run_result := r;
           run_trace := (attempt_body api bounds max_retries a).1;
           run_attempts := 1 |}
    | Continue =>
        let rest := get_states_loop api bounds max_retries k (S a) in
        {| run_result := run_result rest;
           run_trace := (attempt_body api bounds max_retries a).1 ++ run_trace rest;
           run_attempts := S (run_attempts rest) |}
    end.
Proof. simpl. by destruct (attempt_body api bounds max_retries a) as [ev []]. Qed.

(** Every iteration entered makes the same call. *)
Lemma get_states_loop_calls (b : option bbox) (k a : nat) :
  call_argument bounds = Ok b →
  calls (run_trace (get_states_loop api bounds max_retries k a)) =
    replicate (run_attempts (get_states_loop api bounds max_retries k a)) b.
Proof.
  intros Hb. revert a. induction k as [|k IH]; intros a; [done|].
  rewrite get_states_loop_S.
  pose proof (attempt_body_calls a) as Hc. rewrite (fetch_calls a b Hb) in Hc.
  destruct (attempt_body api bounds max_retries a).2; simpl.
  - by rewrite calls_app, Hc, IH.
  - by rewrite Hc.
Qed.

Lemma get_states_loop_attempts (k a : nat) :
  (run_attempts (get_states_loop api bounds max_retries k a) ≤ k)%nat ∧
  ((0 < k)%nat → (0 < run_attempts (get_states_loop api bounds max_retries k a))%nat).
Proof.
  revert a. induction k as [|k IH]; intros a; [simpl; lia|].
  rewrite get_states_loop_S.
  destruct (attempt_body api bounds max_retries a).2; simpl;
    [destruct (IH (S a))|]; lia.
Qed.

(** The loop continues only when another iteration is left. *)
Lemma attempt_body_Continue (i : nat) :
  (attempt_body api bounds max_retries i).2 = Continue →
  Z.of_nat i < max_retries - 1.
Proof.
  unfold attempt_body.
  destruct (fetch api bounds i) as [ev [sv|e]]; simpl.
  - destruct (found sv); simpl; [done|].
    destruct (Z.of_nat i <? max_retries - 1) eqn:Hlt; simpl; [lia|done].
  - destruct (Z.of_nat i <? max_retries - 1) eqn:Hlt; simpl; [lia|done].
Qed.

(** One sleep between two consecutive iterations, none after the last. *)
Lemma get_states_loop_sleeps_length (k a : nat) :
  Z.of_nat (a + k) = max_retries →
  length (sleeps (run_trace (get_states_loop api bounds max_retries k a))) =
    pred (run_attempts (get_states_loop api bounds max_retries k a)).
Proof.
  revert a. induction k as [|k IH]; intros a Hk; [done|].
  rewrite get_states_loop_S. pose proof (attempt_body_sleeps a) as Hs.
  pose proof (attempt_body_Continue a) as Hlt.
  destruct (attempt_body api bounds max_retries a).2 eqn:Hc; simpl.
  - rewrite sleeps_app, Hs, length_app, IH by lia. simpl.
    destruct (get_states_loop_attempts k (S a)) as [_ Hpos].
    specialize (Hlt eq_refl). lia.
  - by rewrite Hs.
Qed.

(** The sleep after the iteration [a + j] is its [backoff]. *)
Lemma get_states_loop_sleeps (k a j : nat) :
  (S j < run_attempts (get_states_loop api bounds max_retries k a))%nat →
  sleeps (run_trace (get_states_loop api bounds max_retries k a)) !! j =
    Some (backoff (fetch api bounds (a + j)).2 (a + j)).
Proof.
  revert a j. induction k as [|k IH]; intros a j; [simpl; lia|].
  rewrite get_states_loop_S. pose proof (attempt_body_sleeps a) as Hs.
  destruct (attempt_body api bounds max_retries a).2 eqn:Hc; simpl; [|lia].
  intros Hj. rewrite sleeps_app, Hs. simpl.
  destruct j as [|j]; simpl.
  - by rewrite Nat.add_0_r.
  - rewrite IH by lia. by rewrite Nat.add_succ_comm.
Qed.
End RetryProperties.

(** C1, as amended: in every run of [get_states] there is exactly one
    sleep between two consecutive attempts, and the sleep after the
    failed attempt [i] (0-based) is [min(2^i, 60)] seconds when the
    fetcher returned in that attempt (the no-data sentinel or an empty
    record list, whatever failure the fetcher had collapsed into it),
    and 5 seconds when the [try] block raised. *)
Theorem get_states_backoff
    (api : nat → option bbox → list message * py_result (option StateVector))
    (bounds : option (gmap string pyval)) (max_retries : Z) :
  let r := get_states api bounds max_retries in
  length (sleeps (run_trace r)) = pred (run_attempts r) ∧
  ∀ i, (S i < run_attempts r)%nat →
    (∀ v, (fetch api bounds i).2 = Ok v →
          sleeps (run_trace r) !! i = Some (Z.min (2 ^ Z.of_nat i) 60)) ∧
    (∀ e, (fetch api bounds i).2 = Raise e →
          sleeps (run_trace r) !! i = Some 5).
Proof.
  unfold get_states. split.
  - destruct (decide (0 ≤ max_retries)) as [Hpos|Hneg].
    + apply get_states_loop_sleeps_length. lia.
    + by replace (Z.to_nat max_retries) with 0%nat by lia.
  - intros i Hi.
    pose proof (get_states_loop_sleeps api bounds max_retries _ 0 i Hi) as Hs.
    simpl in Hs. split; intros ? Hr; rewrite Hr in Hs; exact Hs.
Qed.

Lemma get_states_backoff_witness :
  let r := get_states api_raise_then_no_data None 3 in
  (1 < run_attempts r)%nat ∧ (2 < run_attempts r)%nat ∧
  sleeps (run_trace r) !! 0%nat = Some 5 ∧
  sleeps (run_trace r) !! 1%nat = Some (Z.min (2 ^ 1) 60).
Proof.
  intros r.
  assert (1 < run_attempts r)%nat as H0 by (vm_compute; lia).
  assert (2 < run_attempts r)%nat as H1 by (vm_compute; lia).
  destruct (get_states_backoff api_raise_then_no_data None 3) as [_ Hsleep].
  split_and!; [exact H0 | exact H1 | |].
  - exact (proj2 (Hsleep 0%nat H0) _ eq_refl).
  - exact (proj1 (Hsleep 1%nat H1) _ eq_refl).
Defined.

(** C1, as stated, fails: when the attempt raises, the sleep is the
    constant 5 of line 120 and not [min(2^attempt, 60)]. *)
Lemma get_states_backoff_not_always_exponential :
  ¬ ∀ (api : nat → option bbox → list message * py_result (option StateVector))
      (bounds : option (gmap string pyval)) (max_retries : Z) (i : nat),
      (S i < run_attempts (get_states api bounds max_retries))%nat →
      sleeps (run_trace (get_states api bounds max_retries)) !! i =
        Some (Z.min (2 ^ Z.of_nat i) 60).
Proof.
  intros H. specialize (H api_raising None 3 0%nat).
  vm_compute in H. discriminate H. lia.
Qed.

(** The same constant sleep without any fetcher at fault: a [bounds]
    dict without its keys makes line 98 raise [KeyError]. *)
Example get_states_missing_key :
  get_states api_no_data (Some {[ "lamin" := PFloat (Qc_of_Z 35) ]}) 2 =
    {| run_result := None;
       run_trace := [ Print (ErrorFetchingData (KeyError (PStr "lamax")));
                      Sleep 5;
                      Print (ErrorFetchingData (KeyError (PStr "lamax"))) ];
       run_attempts := 2 |}.
Proof. vm_compute. reflexivity. Qed.

(** The run against a fetcher that never has data. *)
Lemma get_states_loop_no_data
    (api : nat → option bbox → list message * py_result (option StateVector))
    (bounds : option (gmap string pyval)) (b : option bbox)
    (max_retries : Z) (k a : nat) :
  call_argument bounds = Ok b →
  (∀ i, (api i b).2 = Ok None) →
  Z.of_nat (a + k) = max_retries →
  let r := get_states_loop api bounds max_retries k a in
  run_attempts r = k ∧
  sleeps (run_trace r) = exponential_backoff <$> seq a (k - 1) ∧
  run_result r = None.
Proof.
  intros Hb Hnone. revert a. induction k as [|k IH]; intros a Hk; [done|].
  simpl. unfold attempt_body.
  pose proof (fetch_sleeps api bounds a) as Hfs.
  pose proof (fetch_result api bounds a b Hb) as Hfr. rewrite Hnone in Hfr.
  destruct (fetch api bounds a) as [ev r0]. simpl in Hfs, Hfr. subst r0. simpl.
  destruct (Z.of_nat a <? max_retries - 1) eqn:Hlt.
  - apply Z.ltb_lt in Hlt. destruct (IH (S a)) as (Hn & Hs & Hr); [lia|].
    simpl. rewrite Hn, Hr, !sleeps_app, Hfs, Hs. simpl.
    split_and!; [done| |done].
    destruct k as [|k]; [lia|]. simpl. by rewrite Nat.sub_0_r.
  - apply Z.ltb_ge in Hlt. assert (k = 0)%nat as -> by lia. done.
Qed.

(** C8: against a fetcher that always returns the no-data sentinel,
    [get_states] makes exactly [max_retries] attempts, each with one
    call; it sleeps [min(2^i, 60)] seconds after the attempt [i] for
    every attempt but the last, that is 1, 2, 4, ... capped at 60; and
    it returns [None]. *)
Theorem get_states_always_no_data
    (api : nat → option bbox → list message * py_result (option StateVector))
    (bounds : option (gmap string pyval)) (b : option bbox) (max_retries : Z) :
  call_argument bounds = Ok b →
  (∀ i, (api i b).2 = Ok None) →
  0 ≤ max_retries →
  let r := get_states api bounds max_retries in
  Z.of_nat (run_attempts r) = max_retries ∧
  calls (run_trace r) = replicate (Z.to_nat max_retries) b ∧
  sleeps (run_trace r) =
    (λ i, Z.min (2 ^ Z.of_nat i) 60) <$> seq 0 (Z.to_nat max_retries - 1) ∧
  run_result r = None.
Proof.
  intros Hb Hnone Hpos r.
  destruct (get_states_loop_no_data api bounds b max_retries
              (Z.to_nat max_retries) 0 Hb Hnone) as (Hn & Hs & Hr); [lia|].
  subst r. unfold get_states.
  rewrite (get_states_loop_calls api bounds max_retries b _ _ Hb), Hn.
  split_and!; [lia | done | exact Hs | exact Hr].
Qed.

Lemma get_states_always_no_data_witness :
  let r := get_states api_no_data (bounds_get "europe") 8 in
  Z.of_nat (run_attempts r) = 8 ∧
  calls (run_trace r) = replicate 8 (Some europe_bbox) ∧
  sleeps (run_trace r) = [1; 2; 4; 8; 16; 32; 60] ∧
  run_result r = None.
Proof.
  apply (get_states_always_no_data api_no_data (bounds_get "europe")
           (Some europe_bbox) 8).
  - vm_compute. reflexivity.
  - intros i. reflexivity.
  - lia.
Defined.

(** An empty record list and the no-data sentinel take the same branch
    of one iteration. *)
Lemma attempt_body_empty_as_no_data
    (api : nat → option bbox → list message * py_result (option StateVector))
    (bounds : option (gmap string pyval)) (max_retries : Z) (i : nat) :
  attempt_body (empty_as_no_data api) bounds max_retries i =
  attempt_body api bounds max_retries i.
Proof.
  unfold attempt_body, fetch, empty_as_no_data, found.
  destruct (call_argument bounds) as [b|e]; [|done].
  destruct (api i b) as [out [[sv|]|e]]; simpl; try done.
  destruct (states sv) as [|s l] eqn:Hsv; simpl; by rewrite ?Hsv.
Qed.

(** C4: a snapshot with an empty record list is no success.  A run of
    [get_states] is the same, event for event, as the run in which the
    fetcher answers the no-data sentinel in place of every empty list;
    and when the first call returns an empty list and the second a
    non-empty one, with at least two attempts allowed, there are exactly
    two attempts, with one sleep of 1 second between them, and the
    records of the second call are returned. *)
Theorem get_states_empty_list_is_failure
    (api : nat → option bbox → list message * py_result (option StateVector))
    (bounds : option (gmap string pyval)) (max_retries : Z) :
  get_states api bounds max_retries =
    get_states (empty_as_no_data api) bounds max_retries ∧
  ∀ b out0 sv0 out1 sv1,
    call_argument bounds = Ok b →
    api 0%nat b = (out0, Ok (Some sv0)) → states sv0 = [] →
    api 1%nat b = (out1, Ok (Some sv1)) → states sv1 ≠ [] →
    2 ≤ max_retries →
    let r := get_states api bounds max_retries in
    run_attempts r = 2%nat ∧
    calls (run_trace r) = [b; b] ∧
    sleeps (run_trace r) = [1] ∧
    run_result r = Some (states sv1).
Proof.
  split.
  - unfold get_states. generalize (Z.to_nat max_retries) 0%nat.
    intros k. induction k as [|k IH]; intros a; [done|].
    simpl. rewrite attempt_body_empty_as_no_data.
    destruct (attempt_body api bounds max_retries a) as [ev [|r]]; [|done].
    by rewrite IH.
  - intros b out0 sv0 out1 sv1 Hb H0 Hs0 H1 Hs1 Hmax r.
    assert (calls (run_trace r) = replicate (run_attempts r) b) as Hcalls
      by apply (get_states_loop_calls api bounds max_retries b _ _ Hb).
    revert Hcalls. subst r. unfold get_states.
    destruct (Z.to_nat max_retries) as [|[|k]] eqn:Hk; [lia|lia|].
    simpl. unfold attempt_body, fetch. rewrite Hb, H0, H1. simpl. rewrite Hs0.
    replace (Z.of_nat 0 <? max_retries - 1) with true
      by (symmetry; apply Z.ltb_lt; lia).
    destruct (states sv1) as [|s1 l1] eqn:Hl; [done|]. simpl.
    intros ->. rewrite !sleeps_app, !sleeps_prints. simpl.
    by rewrite sleeps_prints.
Qed.

Lemma get_states_empty_list_is_failure_witness :
  let r := get_states api_empty_then_data None 3 in
  run_attempts r = 2%nat ∧
  calls (run_trace r) = [None; None] ∧
  sleeps (run_trace r) = [1] ∧
  run_result r = Some [state12].
Proof.
  destruct (get_states_empty_list_is_failure api_empty_then_data None 3)
    as [_ Hscenario].
  apply (Hscenario None [] {| time := PInt 1700000000; states := [] |}
           [] {| time := PInt 1700000002; states := [state12] |});
    [reflexivity | reflexivity | reflexivity | reflexivity | discriminate | lia].
Defined.

(** ** Region presets *)

(** C9: for the region [europe] every call that [create_map] makes to
    the fetcher, and it makes between one and three, carries the
    bounding box [(35.0, 60.0, -15.0, 40.0)], in the order lamin, lamax,
    lomin, lomax; for [world] every call is made without a bounding
    box. *)
Theorem create_map_region_bbox
    (api : nat → option bbox → list message * py_result (option StateVector))
    (now : string) :
  (∃ n, (1 ≤ n ≤ 3)%nat ∧
        calls (create_map api now "europe").1 = replicate n (Some europe_bbox)) ∧
  (∃ n, (1 ≤ n ≤ 3)%nat ∧
        calls (create_map api now "world").1 = replicate n None).
Proof.
  split.
  - exists (run_attempts (get_states api (bounds_get "europe") 3)). split.
    + destruct (get_states_loop_attempts api (bounds_get "europe") 3 3 0).
      unfold get_states. change (Z.to_nat 3) with 3%nat. lia.
    + apply get_states_loop_calls. vm_compute. reflexivity.
  - exists (run_attempts (get_states api (bounds_get "world") 3)). split.
    + destruct (get_states_loop_attempts api (bounds_get "world") 3 3 0).
      unfold get_states. change (Z.to_nat 3) with 3%nat. lia.
    + apply get_states_loop_calls. vm_compute. reflexivity.
Qed.

(** ** Map layers *)

(** The loop of lines 227-255 adds, in order, one marker and one heat
    point for each record that is drawn. *)
Lemma foldl_add_state (sts : list State) (acc : list Marker * list HeatPoint) :
  foldl add_state acc sts =
    (acc.1 ++ (marker_of <$> filter (λ s, drawn s = true) sts),
     acc.2 ++ (heat_point_of <$> filter (λ s, drawn s = true) sts)).
Proof.
  revert acc. induction sts as [|s sts IH]; intros [ms hs]; simpl.
  - by rewrite !app_nil_r.
  - rewrite IH. unfold add_state. fold (drawn s).
    destruct (drawn s) eqn:Hs.
    + rewrite filter_cons_True by done. simpl. by rewrite <- !app_assoc.
    + rewrite filter_cons_False by (by rewrite Hs). done.
Qed.

Lemma map_layers_filter (sts : list State) :
  map_layers sts =
    {| markers := marker_of <$> filter (λ s, drawn s = true) sts;
       heatmap := Some (heat_point_of <$> filter (λ s, drawn s = true) sts) |}.
Proof. unfold map_layers. by rewrite foldl_add_state. Qed.

Lemma shows_py_or (d v : pyval) : shows d v (py_or v d).
Proof.
  unfold shows, py_or. split.
  - by intros ->.
  - by intros ->.
Qed.

Lemma py_truthy_not_None (v : pyval) : py_truthy v = true → v ≠ PNone.
Proof. by intros Hv ->. Qed.

(** C6, as amended: for every record of the list whose latitude and
    longitude are both present and not zero, [create_map] puts the heat
    point [(lat, lon, 1)] into the heat-map data and a marker at
    [(lat, lon)] on the map; the popup of the marker shows the callsign,
    the altitude and the velocity, each replaced by [N/A] when it is
    [None] and shown as it is when it is true, and the country of origin
    as it is stored, without a placeholder; the icon is rotated by
    [true_track], by 0 when that is [None].  A record with a [None]
    coordinate adds nothing, and every marker on the map comes from a
    record that has both coordinates. *)
Theorem map_layers_records (sts : list State) :
  (∀ s, s ∈ sts → py_truthy (latitude s) = true → py_truthy (longitude s) = true →
     (∃ heat_data, heatmap (map_layers sts) = Some heat_data ∧
                   (latitude s, longitude s, 1) ∈ heat_data) ∧
     ∃ m, m ∈ markers (map_layers sts) ∧
          location m = (latitude s, longitude s) ∧
          shows (PStr "N/A") (callsign s) (popup_callsign (popup m)) ∧
          shows (PStr "N/A") (geo_altitude s) (popup_altitude (popup m)) ∧
          shows (PStr "N/A") (velocity s) (popup_velocity (popup m)) ∧
          popup_origin (popup m) = origin_country s ∧
          shows (PInt 0) (true_track s) (icon_rotation m)) ∧
  (∀ acc s, latitude s = PNone ∨ longitude s = PNone → add_state acc s = acc) ∧
  (∀ m, m ∈ markers (map_layers sts) →
     ∃ s, s ∈ sts ∧ latitude s ≠ PNone ∧ longitude s ≠ PNone ∧ m = marker_of s).
Proof.
  rewrite map_layers_filter. simpl. split_and!.
  - intros s Hin Hlat Hlon.
    assert (s ∈ filter (λ s, drawn s = true) sts) as Hs.
    { apply list_elem_of_filter. split; [|done].
      unfold drawn. by rewrite Hlat, Hlon. }
    split.
    + eexists. split; [reflexivity|].
      by apply (list_elem_of_fmap_2 heat_point_of) in Hs.
    + exists (marker_of s). split; [by apply list_elem_of_fmap_2|].
      simpl. split_and!; try done; apply shows_py_or.
  - intros acc s Hnone. unfold add_state.
    destruct Hnone as [-> | ->]; simpl; [done|].
    by rewrite andb_false_r.
  - intros m Hm. apply list_elem_of_fmap_1 in Hm as (s & -> & Hs).
    apply list_elem_of_filter in Hs as [Hdrawn Hin].
    unfold drawn in Hdrawn. apply andb_true_iff in Hdrawn as [Hlat Hlon].
    exists s. split_and!; [done | | | done]; by apply py_truthy_not_None.
Qed.

Lemma map_layers_records_witness :
  (∃ heat_data, heatmap (map_layers [state12]) = Some heat_data ∧
     (PFloat (Qc_of_Z 50), PFloat (Qc_of_Z 8), 1) ∈ heat_data) ∧
  ∃ m, m ∈ markers (map_layers [state12]) ∧
       location m = (PFloat (Qc_of_Z 50), PFloat (Qc_of_Z 8)) ∧
       shows (PStr "N/A") (PStr "DLH9LF  ") (popup_callsign (popup m)) ∧
       shows (PStr "N/A") (PFloat (Qc_of_Z 10000)) (popup_altitude (popup m)) ∧
       shows (PStr "N/A") (PFloat (Qc_of_Z 230)) (popup_velocity (popup m)) ∧
       popup_origin (popup m) = PStr "Germany" ∧
       shows (PInt 0) (PFloat (Qc_of_Z 90)) (icon_rotation m).
Proof.
  destruct (map_layers_records [state12]) as [Hdrawn _].
  apply (Hdrawn state12).
  - left.
  - reflexivity.
  - reflexivity.
Defined.

(** C6, as stated, fails twice.  The popup shows the country of origin
    as it is stored: for a record without one it interpolates [None],
    not [N/A].  And a record whose latitude is the number zero has both
    coordinates, yet gets neither a marker nor a heat point. *)
Lemma map_layers_not_as_stated :
  (latitude state_no_origin ≠ PNone ∧ longitude state_no_origin ≠ PNone ∧
   origin_country state_no_origin = PNone ∧
   ∃ m, markers (map_layers [state_no_origin]) = [m] ∧
        popup_origin (popup m) = PNone ∧
        popup_origin (popup m) ≠ PStr "N/A") ∧
  (latitude state_equator = PFloat (Qc_of_Z 0) ∧
   latitude state_equator ≠ PNone ∧ longitude state_equator ≠ PNone ∧
   map_layers [state_equator] = {| markers := []; heatmap := Some [] |}).
Proof.
  split.
  - split_and!; [done | done | done |].
    eexists. split_and!; [reflexivity | reflexivity | done].
  - split_and!; done.
Qed.

(** ** Statistics *)

(** The example of the specification: altitudes 1000, 2000 and null
    give [1500m], and the count is 3. *)
Example statistics_1000_2000_null (now : string) :
  statistics now [ state_altitude (PInt 1000); state_altitude (PInt 2000);
                   state_altitude PNone ] =
    Ok {| total_aircraft := 3; countries := 1;
          average_altitude := "1500m"; last_updated := now |}.
Proof. vm_compute. reflexivity. Qed.

(** The number of records counts those without an altitude too. *)
Lemma statistics_total (now : string) (sts : list State) (st : Statistics) :
  statistics now sts = Ok st → total_aircraft st = length sts.
Proof.
  unfold statistics. intros H.
  destruct (mapM py_hash _) as [keys|e]; [|done]. simpl in H.
  destruct (match sts with [] => _ | _ => _ end) as [avg|e]; [|done].
  simpl in H. by injection H as <-.
Qed.

(** C7 fails on the code: when the list has records but none of them has
    an altitude, line 261 takes [np.mean] of the empty list, which is
    NaN, and the text reads [nanm] in place of [0m]. *)
Theorem statistics_no_altitude_is_nan (now : string) :
  statistics now [ state_altitude PNone ] =
    Ok {| total_aircraft := 1; countries := 1;
          average_altitude := "nanm"; last_updated := now |}.
Proof. vm_compute. reflexivity. Qed.

(** * Further properties of the code *)

(** ** The snapshot constructor *)

Lemma for_append_Forall2 {A B} (f : A → py_result B) (xs : list A)
    (zs ys : list B) :
  Forall2 (λ x z, f x = Ok z) xs zs → for_append f xs ys = Ok (ys ++ zs).
Proof.
  intros H. revert ys. induction H as [|x z xs zs Hx _ IH]; intros ys; simpl.
  - by rewrite app_nil_r.
  - rewrite Hx. simpl. rewrite IH. by rewrite <- app_assoc.
Qed.

Lemma for_append_first_failure {A B} (f : A → py_result B)
    (pre post : list A) (x : A) (e : exn) (ys : list B) :
  Forall (λ a, ∃ z, f a = Ok z) pre → f x = Raise e →
  for_append f (pre ++ x :: post) ys = Raise e.
Proof.
  intros Hpre Hx. revert ys.
  induction Hpre as [|a pre [z Ha] _ IH]; intros ys; simpl.
  - by rewrite Hx.
  - rewrite Ha. simpl. apply IH.
Qed.

Lemma long_array_State_init (v : pyval) :
  long_array v → ∃ s, State_init v = Ok s.
Proof.
  intros (l & -> & Hlen).
  destruct (State_init_list l Hlen)
    as (a0&a1&a2&a3&a4&a5&a6&a7&a8&a9&a10&a11&_&Hs).
  eauto.
Qed.

(** A body without a [states] key, or with a [states] that is null or an
    empty array, gives a snapshot without records; its time is the
    [time] of the body, or 0 when the body has none. *)
Theorem StateVector_init_no_states (d : list (string * pyval)) :
  py_truthy (default PNone (assoc "states" d)) = false →
  StateVector_init (PDict d) =
    Ok {| time := default (PInt 0) (assoc "time" d); states := [] |}.
Proof.
  intros Hfalse. unfold StateVector_init. simpl.
  destruct (assoc "states" d) as [sts|]; simpl in *; by rewrite ?Hfalse.
Qed.

Lemma StateVector_init_no_states_witness :
  StateVector_init (PDict [ ("time", PInt 1700000000) ]) =
    Ok {| time := PInt 1700000000; states := [] |}.
Proof.
  apply (StateVector_init_no_states [ ("time", PInt 1700000000) ]).
  reflexivity.
Defined.

(** When every element of [states] is an array of at least 12 elements,
    the snapshot has one record for each of them, in the order of the
    body, each one the [State] of its array. *)
Theorem StateVector_init_records (d : list (string * pyval)) (items : list pyval) :
  assoc "states" d = Some (PList items) →
  Forall long_array items →
  ∃ sts,
    StateVector_init (PDict d) =
      Ok {| time := default (PInt 0) (assoc "time" d); states := sts |} ∧
    Forall2 (λ v s, State_init v = Ok s) items sts.
Proof.
  intros Hst Hlong.
  assert (∃ sts, Forall2 (λ v s, State_init v = Ok s) items sts) as [sts Hsts].
  { clear Hst. induction Hlong as [|v items Hv Hl IH].
    - exists nil. constructor.
    - destruct IH as [sts IH].
      destruct (long_array_State_init v Hv) as [s Hs].
      exists (s :: sts). by constructor. }
  exists sts. split; [|done].
  pose proof (for_append_Forall2 State_init items sts [] Hsts) as Hfa.
  unfold StateVector_init. simpl. rewrite Hst. simpl.
  destruct items as [|v items]; simpl in *.
  - by inversion Hsts.
  - by rewrite Hfa.
Qed.

Lemma StateVector_init_records_witness :
  ∃ sts, StateVector_init body_two_records =
           Ok {| time := PInt 1700000000; states := sts |} ∧
         Forall2 (λ v s, State_init v = Ok s) [ PList array12; PList array15 ] sts.
Proof.
  apply (StateVector_init_records
           [ ("time", PInt 1700000000);
             ("states", PList [ PList array12; PList array15 ]) ]
           [ PList array12; PList array15 ]).
  - reflexivity.
  - repeat (constructor; [eexists; split; [reflexivity | simpl; lia]|]).
    constructor.
Defined.

Lemma StateVector_init_short (d : list (string * pyval))
    (pre post : list pyval) (l : list pyval) :
  assoc "states" d = Some (PList (pre ++ PList l :: post)) →
  Forall long_array pre →
  (length l < 12)%nat →
  StateVector_init (PDict d) = Raise IndexError.
Proof.
  intros Hst Hpre Hl. unfold StateVector_init. simpl. rewrite Hst. simpl.
  replace (match pre ++ PList l :: post with [] => false | _ => true end)
    with true by (by destruct pre).
  assert (for_append State_init (pre ++ PList l :: post) [] = Raise IndexError)
    as Hfa.
  { apply for_append_first_failure.
    - eapply List.Forall_impl; [exact long_array_State_init | exact Hpre].
    - do 12 (destruct l as [|? l]; [reflexivity|]). simpl in Hl. lia. }
  simpl. by rewrite Hfa.
Qed.

(** ** The fetcher *)

(** The client sends credentials exactly when the start-up code prints
    no warning: [auth] is [None] if and only if one of the two
    environment variables is unset or empty. *)
Theorem warns_anonymous_iff_no_auth (username password : option string) :
  warns_anonymous username password = true ↔
  auth (OpenSkyApi_init username password) = None.
Proof.
  unfold warns_anonymous, env_truthy, OpenSkyApi_init. simpl.
  destruct username as [u|], password as [p|]; simpl; try done.
  - destruct (String.eqb u ""), (String.eqb p ""); simpl; split; done.
  - by destruct (String.eqb u "").
Qed.

Ltac lookup_params :=
  repeat first
    [ rewrite lookup_insert_eq
    | rewrite lookup_insert_ne by done
    | rewrite lookup_singleton_eq
    | rewrite lookup_singleton_ne by done ];
  try done.

(** The query parameters: [time] is always sent, and is the clock
    reading when [time_secs] is 0; the four bounds are sent together,
    each under its own key, or not at all; [icao24] is sent only when it
    is a non-empty string. *)
Theorem get_states_params_lookup (now time_secs : Z) (icao24 : option string) :
  (∀ bb, get_states_params now time_secs icao24 bb !! "time" =
           Some (PInt (if decide (time_secs = 0) then now else time_secs))) ∧
  (∀ lamin lamax lomin lomax,
     let p := get_states_params now time_secs icao24
                (Some (lamin, lamax, lomin, lomax)) in
     p !! "lamin" = Some lamin ∧ p !! "lamax" = Some lamax ∧
     p !! "lomin" = Some lomin ∧ p !! "lomax" = Some lomax) ∧
  (let p := get_states_params now time_secs icao24 None in
   p !! "lamin" = None ∧ p !! "lamax" = None ∧
   p !! "lomin" = None ∧ p !! "lomax" = None) ∧
  (∀ bb, get_states_params now time_secs icao24 bb !! "icao24" =
           match icao24 with
           | Some s => if String.eqb s "" then None else Some (PStr s)
           | None => None
           end).
Proof.
  unfold get_states_params.
  (destruct icao24 as [s|]; [destruct (String.eqb s "")|]);
    cbv beta iota zeta; split_and!; intros;
    repeat match goal with
           | bb : option bbox |- _ => destruct bb as [[[[? ?] ?] ?]|]
           end;
    lookup_params.
Qed.

(** The fetcher returns on every path (shared by the results below). *)
Lemma OpenSkyApi_get_states_cases
    (requests_get : Request → py_result Response) (now : Z)
    (self : OpenSkyApi) (time_secs : Z) (icao24 : option string)
    (bb : option bbox) :
  (∃ sv, OpenSkyApi_get_states requests_get now self time_secs icao24 bb =
           ([], Ok (Some sv))) ∨
  (∃ m, OpenSkyApi_get_states requests_get now self time_secs icao24 bb =
          ([m], Ok None)).
Proof.
  unfold OpenSkyApi_get_states, get_states_try.
  destruct (requests_get _) as [response|e]; [|right; by eexists].
  destruct (status_code response =? 200).
  - destruct (json response) as [j|e]; simpl; [|right; by eexists].
    destruct (StateVector_init j) as [sv|e]; simpl;
      [left | right]; by eexists.
  - destruct (status_code response =? 401); right; by eexists.
Qed.

(** The fetcher prints nothing when it returns a snapshot, and exactly
    one message when it returns [None]: no failure is silent. *)
Theorem OpenSkyApi_get_states_one_message
    (requests_get : Request → py_result Response) (now : Z)
    (self : OpenSkyApi) (time_secs : Z) (icao24 : option string)
    (bb : option bbox) :
  let '(out, r) :=
    OpenSkyApi_get_states requests_get now self time_secs icao24 bb in
  (∃ sv, r = Ok (Some sv) ∧ out = []) ∨ (r = Ok None ∧ ∃ m, out = [m]).
Proof.
  destruct (OpenSkyApi_get_states_cases requests_get now self time_secs icao24 bb)
    as [[sv ->]|[m ->]]; [left | right]; eauto.
Qed.

(** A 200 response in which one record is too short, after any number
    of good ones, yields no snapshot at all: the fetcher reports the
    [IndexError] and returns [None]. *)
Theorem OpenSkyApi_get_states_short_record
    (requests_get : Request → py_result Response) (now : Z)
    (self : OpenSkyApi) (time_secs : Z) (icao24 : option string)
    (bb : option bbox) (response : Response) (d : list (string * pyval))
    (pre post l : list pyval) :
  requests_get (get_states_request self
                  (get_states_params now time_secs icao24 bb)) = Ok response →
  status_code response = 200 →
  json response = Ok (PDict d) →
  assoc "states" d = Some (PList (pre ++ PList l :: post)) →
  Forall long_array pre →
  (length l < 12)%nat →
  OpenSkyApi_get_states requests_get now self time_secs icao24 bb =
    ([ErrorFetchingData IndexError], Ok None).
Proof.
  intros Hget H200 Hjson Hst Hpre Hl.
  unfold OpenSkyApi_get_states, get_states_try.
  rewrite Hget, H200, Hjson. simpl.
  by rewrite (StateVector_init_short d pre post l Hst Hpre Hl).
Qed.

Lemma OpenSkyApi_get_states_short_record_witness :
  OpenSkyApi_get_states (λ _, Ok (response_of 200 (Ok body_short_record)))
      1700000005 (OpenSkyApi_init None None) 0 None (Some europe_bbox) =
    ([ErrorFetchingData IndexError], Ok None).
Proof.
  apply (OpenSkyApi_get_states_short_record _ _ _ _ _ _
           (response_of 200 (Ok body_short_record))
           [ ("time", PInt 1700000000);
             ("states", PList [ PList array12; PList array11 ]) ]
           [ PList array12 ] [] array11).
  - reflexivity.
  - reflexivity.
  - reflexivity.
  - reflexivity.
  - constructor; [eexists; split; [reflexivity | simpl; lia]|]. constructor.
  - simpl. lia.
Defined.

(** ** The retry wrapper, in general *)

Section RetryOutcomes.
Context (api : nat → option bbox → list message * py_result (option StateVector)).
Context (bounds : option (gmap string pyval)) (max_retries : Z).

Lemma found_Some_nonempty (r : option StateVector) (l : list State) :
  found r = Some l → l ≠ [] ∧ ∃ sv, r = Some sv ∧ states sv = l.
Proof.
  unfold found. destruct r as [sv|]; [|done].
  destruct (states sv) as [|s l'] eqn:Hsv; [done|].
  intros [= <-]. split; [done|]. by exists sv.
Qed.

Lemma attempt_body_succeeds (i : nat) (l : list State) :
  succeeds api bounds i l →
  (attempt_body api bounds max_retries i).2 = Return (Some l).
Proof.
  intros (sv & Hr & Hf). unfold attempt_body.
  destruct (fetch api bounds i) as [ev r]. simpl in Hr. subst r.
  by rewrite Hf.
Qed.

Lemma attempt_body_fails (i : nat) :
  fails api bounds i →
  (attempt_body api bounds max_retries i).2 =
    if Z.of_nat i <? max_retries - 1 then Continue else Return None.
Proof.
  intros Hfail. unfold attempt_body. unfold fails in Hfail.
  destruct (fetch api bounds i) as [ev [sv|e]]; simpl in *.
  - rewrite (Hfail sv eq_refl). by destruct (Z.of_nat i <? max_retries - 1).
  - by destruct (Z.of_nat i <? max_retries - 1).
Qed.

Lemma attempt_body_Return_Some (i : nat) (l : list State) :
  (attempt_body api bounds max_retries i).2 = Return (Some l) →
  succeeds api bounds i l.
Proof.
  unfold attempt_body, succeeds.
  destruct (fetch api bounds i) as [ev [sv|e]]; simpl.
  - destruct (found sv) as [l'|] eqn:Hf; simpl.
    + intros [= <-]. by exists sv.
    + by destruct (Z.of_nat i <? max_retries - 1).
  - by destruct (Z.of_nat i <? max_retries - 1).
Qed.

(** Where a result of the loop comes from. *)
Lemma get_states_loop_result (k a : nat) (l : list State) :
  run_result (get_states_loop api bounds max_retries k a) = Some l →
  ∃ j, (j < k)%nat ∧ succeeds api bounds (a + j) l ∧
       run_attempts (get_states_loop api bounds max_retries k a) = S j.
Proof.
  revert a. induction k as [|k IH]; intros a; [done|].
  rewrite get_states_loop_S.
  destruct (attempt_body api bounds max_retries a).2 as [|r] eqn:Hc; simpl.
  - intros Hr. destruct (IH (S a) Hr) as (j & Hj & Hs & Hn).
    exists (S j). rewrite Nat.add_succ_r. split_and!; [lia | done | by rewrite Hn].
  - intros ->. exists 0%nat. rewrite Nat.add_0_r.
    split_and!; [lia | by apply attempt_body_Return_Some | done].
Qed.

(** The loop when the attempt [a + j] is the first that succeeds. *)
Lemma get_states_loop_first_success (j k a : nat) (l : list State) :
  (∀ i, (a ≤ i < a + j)%nat → fails api bounds i) →
  succeeds api bounds (a + j) l →
  Z.of_nat (a + j) < max_retries →
  (j < k)%nat →
  let r := get_states_loop api bounds max_retries k a in
  run_result r = Some l ∧ run_attempts r = S j ∧
  length (sleeps (run_trace r)) = j.
Proof.
  revert k a. induction j as [|j IH]; intros k a Hfail Hsucc Hlt Hk;
    (destruct k as [|k]; [lia|]); cbv zeta; rewrite get_states_loop_S.
  - rewrite Nat.add_0_r in Hsucc.
    pose proof (attempt_body_sleeps api bounds max_retries a) as Hs.
    rewrite (attempt_body_succeeds a l Hsucc) in *. simpl. by rewrite Hs.
  - pose proof (attempt_body_sleeps api bounds max_retries a) as Hs.
    rewrite attempt_body_fails in * by (apply Hfail; lia).
    replace (Z.of_nat a <? max_retries - 1) with true in *
      by (symmetry; apply Z.ltb_lt; lia).
    destruct (IH k (S a)) as (Hr & Hn & Hl).
    + intros i Hi. apply Hfail. lia.
    + by rewrite Nat.add_succ_comm.
    + lia.
    + lia.
    + simpl. rewrite sleeps_app, Hs, length_app, Hl, Hr, Hn. done.
Qed.

(** The loop when no attempt succeeds. *)
Lemma get_states_loop_all_fail (k a : nat) :
  (∀ i, (a ≤ i < a + k)%nat → fails api bounds i) →
  Z.of_nat (a + k) = max_retries →
  let r := get_states_loop api bounds max_retries k a in
  run_result r = None ∧ run_attempts r = k.
Proof.
  revert a. induction k as [|k IH]; intros a Hfail Hmax; [done|].
  cbv zeta. rewrite get_states_loop_S.
  rewrite attempt_body_fails by (apply Hfail; lia).
  destruct (Z.of_nat a <? max_retries - 1) eqn:Hlt.
  - apply Z.ltb_lt in Hlt. destruct (IH (S a)) as [Hr Hn].
    + intros i Hi. apply Hfail. lia.
    + lia.
    + simpl. by rewrite Hr, Hn.
  - apply Z.ltb_ge in Hlt. assert (k = 0)%nat as -> by lia. done.
Qed.

(** Every sleep of the loop lies between 1 and 60 seconds. *)
Lemma get_states_loop_sleeps_range (k a : nat) :
  Forall (λ s, 1 ≤ s ≤ 60)
    (sleeps (run_trace (get_states_loop api bounds max_retries k a))).
Proof.
  revert a. induction k as [|k IH]; intros a; [constructor|].
  rewrite get_states_loop_S.
  pose proof (attempt_body_sleeps api bounds max_retries a) as Hs.
  destruct (attempt_body api bounds max_retries a).2; simpl.
  - rewrite sleeps_app, Hs. apply Forall_app. split; [|apply IH].
    constructor; [|constructor].
    unfold backoff, exponential_backoff.
    destruct (fetch api bounds a).2; [|lia].
    assert (1 ≤ 2 ^ Z.of_nat a) by (apply Z.pow_le_mono_r with (b := 0); lia).
    lia.
  - rewrite Hs. constructor.
Qed.
End RetryOutcomes.

(** With [max_retries] zero or negative the loop body is never entered:
    no call, no sleep, no print, and the result is [None]. *)
Theorem get_states_no_retries
    (api : nat → option bbox → list message * py_result (option StateVector))
    (bounds : option (gmap string pyval)) (max_retries : Z) :
  max_retries ≤ 0 →
  get_states api bounds max_retries =
    {| run_result := None; run_trace := []; run_attempts := 0 |}.
Proof.
  intros Hle. unfold get_states.
  by replace (Z.to_nat max_retries) with 0%nat by lia.
Qed.

Lemma get_states_no_retries_witness :
  get_states api_empty_then_data None 0 =
    {| run_result := None; run_trace := []; run_attempts := 0 |}.
Proof. apply (get_states_no_retries api_empty_then_data None 0). lia. Defined.

(** A result that is not [None] is never an empty list: it is the
    record list that the fetcher returned in the last attempt made, and
    that attempt is one of the first [max_retries]. *)
Theorem get_states_result_from_last_attempt
    (api : nat → option bbox → list message * py_result (option StateVector))
    (bounds : option (gmap string pyval)) (max_retries : Z) (l : list State) :
  run_result (get_states api bounds max_retries) = Some l →
  l ≠ [] ∧
  ∃ i sv, Z.of_nat i < max_retries ∧
          run_attempts (get_states api bounds max_retries) = S i ∧
          (fetch api bounds i).2 = Ok (Some sv) ∧ states sv = l.
Proof.
  unfold get_states. intros Hr.
  destruct (get_states_loop_result api bounds max_retries _ 0 l Hr)
    as (j & Hj & (r & Hfetch & Hfound) & Hn).
  destruct (found_Some_nonempty r l Hfound) as (Hne & sv & -> & Hsv).
  split; [done|]. exists j, sv. simpl in Hfetch. split_and!; [lia|done..].
Qed.

Lemma get_states_result_from_last_attempt_witness :
  [state12] ≠ [] ∧
  ∃ i sv, Z.of_nat i < 3 ∧
          run_attempts (get_states api_empty_then_data None 3) = S i ∧
          (fetch api_empty_then_data None i).2 = Ok (Some sv) ∧
          states sv = [state12].
Proof.
  apply (get_states_result_from_last_attempt api_empty_then_data None 3 [state12]).
  reflexivity.
Defined.

(** The wrapper returns the records of the first attempt that succeeds:
    when the attempts before [k] fail and the attempt [k], one of the
    first [max_retries], finds records, exactly [k + 1] attempts are
    made, with [k] sleeps, and those records are the result. *)
Theorem get_states_first_success
    (api : nat → option bbox → list message * py_result (option StateVector))
    (bounds : option (gmap string pyval)) (max_retries : Z)
    (k : nat) (l : list State) :
  (∀ i, (i < k)%nat → fails api bounds i) →
  succeeds api bounds k l →
  Z.of_nat k < max_retries →
  let r := get_states api bounds max_retries in
  run_result r = Some l ∧ run_attempts r = S k ∧
  length (sleeps (run_trace r)) = k.
Proof.
  intros Hfail Hsucc Hlt. unfold get_states.
  apply (get_states_loop_first_success api bounds max_retries k _ 0 l);
    [intros i Hi; apply Hfail; lia | done | lia | lia].
Qed.

Lemma get_states_first_success_witness :
  let r := get_states api_empty_then_data None 3 in
  run_result r = Some [state12] ∧ run_attempts r = 2%nat ∧
  length (sleeps (run_trace r)) = 1%nat.
Proof.
  apply (get_states_first_success api_empty_then_data None 3 1 [state12]).
  - intros i Hi. assert (i = 0)%nat as -> by lia.
    intros sv [= <-]. reflexivity.
  - eexists. split; reflexivity.
  - lia.
Defined.

(** When none of the first [max_retries] attempts succeeds, whether the
    fetcher returns without records or the attempt raises, all of them
    are made and the result is [None]. *)
Theorem get_states_all_fail
    (api : nat → option bbox → list message * py_result (option StateVector))
    (bounds : option (gmap string pyval)) (max_retries : Z) :
  (∀ i, Z.of_nat i < max_retries → fails api bounds i) →
  let r := get_states api bounds max_retries in
  run_result r = None ∧ run_attempts r = Z.to_nat max_retries.
Proof.
  intros Hfail. unfold get_states.
  destruct (decide (0 ≤ max_retries)) as [Hpos|Hneg].
  - apply get_states_loop_all_fail; [|lia].
    intros i Hi. apply Hfail. lia.
  - by replace (Z.to_nat max_retries) with 0%nat by lia.
Qed.

Lemma get_states_all_fail_witness :
  let r := get_states api_raise_then_no_data None 3 in
  run_result r = None ∧ run_attempts r = 3%nat.
Proof.
  apply (get_states_all_fail api_raise_then_no_data None 3).
  intros [|i] _ sv; [discriminate|].
  intros [= <-]. reflexivity.
Defined.

(** The effort of one call of the wrapper is bounded: at most
    [max_retries] attempts, at most one fetcher call in each, and every
    sleep between 1 and 60 seconds. *)
Theorem get_states_bounded
    (api : nat → option bbox → list message * py_result (option StateVector))
    (bounds : option (gmap string pyval)) (max_retries : Z) :
  let r := get_states api bounds max_retries in
  (run_attempts r ≤ Z.to_nat max_retries)%nat ∧
  (length (calls (run_trace r)) ≤ run_attempts r)%nat ∧
  Forall (λ s, 1 ≤ s ≤ 60) (sleeps (run_trace r)).
Proof.
  unfold get_states. split_and!.
  - apply get_states_loop_attempts.
  - generalize (Z.to_nat max_retries) 0%nat. intros k.
    induction k as [|k IH]; intros a; [done|].
    rewrite get_states_loop_S.
    pose proof (attempt_body_calls api bounds max_retries a) as Hc.
    assert (length (calls (fetch api bounds a).1) ≤ 1)%nat as Hone.
    { unfold fetch. destruct (call_argument bounds) as [b|e]; [|simpl; lia].
      destruct (api a b) as [out r]. simpl. rewrite calls_prints. simpl. lia. }
    destruct (attempt_body api bounds max_retries a).2; simpl.
    + rewrite calls_app, length_app, Hc. specialize (IH (S a)). lia.
    + rewrite Hc. lia.
  - apply get_states_loop_sleeps_range.
Qed.

(** The wrapper looks at [bounds] through the four keys only: an empty
    dict is the same as [None], and two non-empty dicts with the same
    [lamin], [lamax], [lomin] and [lomax] give the same run, whatever
    else they hold. *)
Theorem get_states_bounds_four_keys
    (api : nat → option bbox → list message * py_result (option StateVector))
    (max_retries : Z) :
  get_states api (Some ∅) max_retries = get_states api None max_retries ∧
  ∀ d d' : gmap string pyval,
    size d ≠ 0%nat → size d' ≠ 0%nat →
    d !! "lamin" = d' !! "lamin" → d !! "lamax" = d' !! "lamax" →
    d !! "lomin" = d' !! "lomin" → d !! "lomax" = d' !! "lomax" →
    get_states api (Some d) max_retries = get_states api (Some d') max_retries.
Proof.
  assert (∀ b1 b2, call_argument b1 = call_argument b2 →
            get_states api b1 max_retries = get_states api b2 max_retries) as Heq.
  { intros b1 b2 Hb. unfold get_states.
    generalize (Z.to_nat max_retries) 0%nat. intros k.
    induction k as [|k IH]; intros a; [done|].
    simpl. unfold attempt_body, fetch. rewrite Hb, IH. done. }
  split; [by apply Heq|].
  intros d d' Hd Hd' H1 H2 H3 H4. apply Heq.
  unfold call_argument, make_bbox, bounds_item.
  rewrite !bool_decide_eq_false_2 by done.
  by rewrite H1, H2, H3, H4.
Qed.

Lemma get_states_bounds_four_keys_witness :
  get_states api_no_data
    (Some {[ "lamin" := PInt 1; "lamax" := PInt 2; "lomin" := PInt 3;
             "lomax" := PInt 4; "name" := PStr "box" ]}) 2 =
  get_states api_no_data
    (Some {[ "lamin" := PInt 1; "lamax" := PInt 2; "lomin" := PInt 3;
             "lomax" := PInt 4 ]}) 2.
Proof.
  destruct (get_states_bounds_four_keys api_no_data 2) as [_ Hkeys].
  apply Hkeys; vm_compute; (reflexivity || discriminate).
Defined.

(** A [bounds] dict that lacks one of the four keys never reaches the
    fetcher: each of the [max_retries] attempts raises [KeyError] before
    the call, every sleep is 5 seconds, and the result is [None]. *)
Theorem get_states_missing_key_never_calls
    (api : nat → option bbox → list message * py_result (option StateVector))
    (bounds : option (gmap string pyval)) (max_retries : Z) (e : exn) :
  call_argument bounds = Raise e →
  0 ≤ max_retries →
  let r := get_states api bounds max_retries in
  run_result r = None ∧
  run_attempts r = Z.to_nat max_retries ∧
  calls (run_trace r) = [] ∧
  sleeps (run_trace r) = replicate (Z.to_nat max_retries - 1) 5.
Proof.
  intros He Hpos. unfold get_states.
  assert (∀ k a, Z.of_nat (a + k) = max_retries →
            let r := get_states_loop api bounds max_retries k a in
            run_result r = None ∧ run_attempts r = k ∧
            calls (run_trace r) = [] ∧
            sleeps (run_trace r) = replicate (k - 1) 5) as Hloop.
  { intros k. induction k as [|k IH]; intros a Hmax; [done|].
    cbv zeta. simpl. unfold attempt_body, fetch. rewrite He.
    destruct (Z.of_nat a <? max_retries - 1) eqn:Hlt.
    - apply Z.ltb_lt in Hlt. destruct (IH (S a)) as (Hr & Hn & Hc & Hs); [lia|].
      simpl. rewrite Hr, Hn, Hc, Hs. split_and!; [done..|].
      destruct k as [|k]; [lia|]. simpl. by rewrite Nat.sub_0_r.
    - apply Z.ltb_ge in Hlt. assert (k = 0)%nat as -> by lia. done. }
  apply Hloop. lia.
Qed.

Lemma get_states_missing_key_never_calls_witness :
  let r := get_states api_empty_then_data
             (Some {[ "lamin" := PFloat (Qc_of_Z 35) ]}) 3 in
  run_result r = None ∧ run_attempts r = 3%nat ∧
  calls (run_trace r) = [] ∧ sleeps (run_trace r) = [5; 5].
Proof.
  apply (get_states_missing_key_never_calls api_empty_then_data
           (Some {[ "lamin" := PFloat (Qc_of_Z 35) ]}) 3
           (KeyError (PStr "lamax"))).
  - vm_compute. reflexivity.
  - lia.
Defined.

(** ** The wrapper on the real fetcher *)

Lemma module_api_returns (requests_get : nat → Request → py_result Response)
    (now : nat → Z) (username password : option string)
    (i : nat) (b : option bbox) :
  ∃ v, (module_api requests_get now username password i b).2 = Ok v.
Proof.
  unfold module_api.
  destruct (OpenSkyApi_get_states_cases (requests_get i) (now i)
              (OpenSkyApi_init username password) 0 None b)
    as [[sv ->]|[m ->]]; by eexists.
Qed.

(** When no attempt raises, the sleeps are the capped powers of two. *)
Lemma get_states_loop_sleeps_exponential
    (api : nat → option bbox → list message * py_result (option StateVector))
    (bounds : option (gmap string pyval)) (max_retries : Z) (k a : nat) :
  (∀ i, ∃ v, (fetch api bounds i).2 = Ok v) →
  Z.of_nat (a + k) = max_retries →
  sleeps (run_trace (get_states_loop api bounds max_retries k a)) =
    exponential_backoff <$>
      seq a (pred (run_attempts (get_states_loop api bounds max_retries k a))).
Proof.
  intros Hok. revert a. induction k as [|k IH]; intros a Hmax; [done|].
  rewrite get_states_loop_S.
  pose proof (attempt_body_sleeps api bounds max_retries a) as Hs.
  pose proof (attempt_body_Continue api bounds max_retries a) as Hlt.
  destruct (attempt_body api bounds max_retries a).2; simpl.
  - specialize (Hlt eq_refl).
    destruct (get_states_loop_attempts api bounds max_retries k (S a)) as [_ Hpos].
    rewrite sleeps_app, Hs, IH by lia.
    destruct (run_attempts (get_states_loop api bounds max_retries k (S a)))
      as [|n]; [lia|].
    simpl. destruct (Hok a) as [v ->]. done.
  - by rewrite Hs.
Qed.

(** On the module's own client, whose [get_states] never raises, and
    with a [bounds] from which the argument can be built, the wrapper
    never takes the 5-second branch: the sleeps of a run are exactly
    [min(2^i, 60)] for i = 0, 1, ..., one after each attempt but the
    last. *)
Theorem get_states_module_api_backoff
    (requests_get : nat → Request → py_result Response) (now : nat → Z)
    (username password : option string)
    (bounds : option (gmap string pyval)) (b : option bbox) (max_retries : Z) :
  call_argument bounds = Ok b →
  let r := get_states (module_api requests_get now username password)
             bounds max_retries in
  sleeps (run_trace r) =
    (λ i, Z.min (2 ^ Z.of_nat i) 60) <$> seq 0 (pred (run_attempts r)).
Proof.
  intros Hb. unfold get_states.
  destruct (decide (0 ≤ max_retries)) as [Hpos|Hneg].
  - apply get_states_loop_sleeps_exponential; [|lia].
    intros i. rewrite (fetch_result _ bounds i b Hb). apply module_api_returns.
  - by replace (Z.to_nat max_retries) with 0%nat by lia.
Qed.

Lemma get_states_module_api_backoff_witness :
  let r := get_states
             (module_api (λ _ _, Ok (response_of 503 (Raise JSONDecodeError)))
                (λ _, 1700000005) None None)
             (bounds_get "asia") 4 in
  sleeps (run_trace r) = [1; 2; 4].
Proof.
  apply (get_states_module_api_backoff
           (λ _ _, Ok (response_of 503 (Raise JSONDecodeError)))
           (λ _, 1700000005) None None (bounds_get "asia")
           (Some (PFloat (Qc_of_Z 10), PFloat (Qc_of_Z 50),
                  PFloat (Qc_of_Z 60), PFloat (Qc_of_Z 150))) 4).
  vm_compute. reflexivity.
Defined.

(** ** Regions *)

(** Every region name, known or not, gives a [bounds] from which the
    call argument can be built. *)
Lemma bounds_get_call_argument (region : string) :
  (bounds_get region = None ∨
   region = "europe" ∨ region = "north_america" ∨ region = "asia") ∧
  ∃ b, call_argument (bounds_get region) = Ok b.
Proof.
  destruct (decide (region = "world")) as [->|Hw]; [split; [by left | by eexists]|].
  destruct (decide (region = "europe")) as [->|He]; [split; [auto | by eexists]|].
  destruct (decide (region = "north_america")) as [->|Hn];
    [split; [auto | by eexists]|].
  destruct (decide (region = "asia")) as [->|Ha]; [split; [auto | by eexists]|].
  assert (bounds_get region = None) as Hnone.
  { unfold bounds_get, region_bounds.
    rewrite !lookup_insert_ne by done. by rewrite lookup_singleton_ne. }
  rewrite Hnone. split; [by left | by eexists].
Qed.

(** A region name that is not in the table is treated as [world]: the
    lookup falls back to [None] and the query has no bounding box. *)
Theorem create_map_unknown_region
    (api : nat → option bbox → list message * py_result (option StateVector))
    (now : string) (region : string) :
  region ≠ "europe" → region ≠ "north_america" → region ≠ "asia" →
  create_map api now region = create_map api now "world".
Proof.
  intros He Hn Ha. unfold create_map.
  destruct (bounds_get_call_argument region) as [[Hnone|[?|[?|?]]] _]; try done.
  by rewrite Hnone.
Qed.

Lemma create_map_unknown_region_witness :
  create_map api_empty_then_data "12:00:00" "africa" =
  create_map api_empty_then_data "12:00:00" "world".
Proof.
  apply (create_map_unknown_region api_empty_then_data "12:00:00" "africa");
    discriminate.
Defined.

(** On the module's own client a refresh of any region makes at most
    three requests and sleeps 1 second after the first failure and 2
    after the second, so at most 3 seconds in all. *)
Theorem create_map_module_api_sleeps
    (requests_get : nat → Request → py_result Response) (now : nat → Z)
    (username password : option string) (clock : string) (region : string) :
  let t := (create_map (module_api requests_get now username password)
              clock region).1 in
  (1 ≤ length (calls t) ≤ 3)%nat ∧
  sleeps t = take (length (calls t) - 1) [1; 2].
Proof.
  cbv zeta. unfold create_map, get_states. cbn [fst].
  change (Z.to_nat 3) with 3%nat.
  destruct (bounds_get_call_argument region) as [_ [b Hb]].
  set (api := module_api requests_get now username password).
  rewrite (get_states_loop_calls api (bounds_get region) 3 b 3 0 Hb).
  rewrite (get_states_loop_sleeps_exponential api (bounds_get region) 3 3 0);
    [|intros i; rewrite (fetch_result _ _ i b Hb); apply module_api_returns|done].
  rewrite length_replicate.
  destruct (get_states_loop_attempts api (bounds_get region) 3 3 0) as [Hle Hpos].
  specialize (Hpos ltac:(lia)).
  destruct (run_attempts (get_states_loop api (bounds_get region) 3 3 0))
    as [|[|[|[|n]]]]; [lia| | | |lia]; (split; [simpl; lia | reflexivity]).
Qed.

(** ** Map layers, in general *)

(** The heat-map layer has one point for each marker, and no record is
    drawn twice: there are at most as many markers as records. *)
Theorem map_layers_counts (sts : list State) :
  ∃ heat_data,
    heatmap (map_layers sts) = Some heat_data ∧
    length heat_data = length (markers (map_layers sts)) ∧
    (length (markers (map_layers sts)) ≤ length sts)%nat.
Proof.
  rewrite map_layers_filter. simpl. eexists. split; [reflexivity|].
  rewrite !length_fmap. split; [done|]. apply length_filter.
Qed.

(** Markers and heat points are laid down record by record, in the order
    of the list: the layers of a concatenation are the layers of its
    parts, one after the other. *)
Theorem map_layers_app (sts1 sts2 : list State) :
  markers (map_layers (sts1 ++ sts2)) =
    markers (map_layers sts1) ++ markers (map_layers sts2) ∧
  heatmap (map_layers (sts1 ++ sts2)) =
    (h1 ← heatmap (map_layers sts1);
     h2 ← heatmap (map_layers sts2);
     Some (h1 ++ h2)).
Proof.
  rewrite !map_layers_filter. simpl.
  by rewrite list.filter_app, !fmap_app.
Qed.

(** ** Statistics, in general *)

Lemma mapM_Ok_Forall2 {A B} (f : A → py_result B) (l : list A) (ys : list B) :
  mapM f l = Ok ys ↔ Forall2 (λ x y, f x = Ok y) l ys.
Proof.
  revert ys. induction l as [|x l IH]; intros ys; simpl.
  - split.
    + intros [= <-]. constructor.
    + intros H. by inversion H.
  - destruct (f x) as [y|e] eqn:Hx; simpl.
    + destruct (mapM f l) as [ys'|e] eqn:Hl; simpl; unfold mret, py_result_ret.
      * split.
        -- intros [= <-]. constructor; [done|]. by apply IH.
        -- intros H. inversion H as [|? y' ? ys'' Hy Hrest]; subst.
           apply IH in Hrest. congruence.
      * split; [done|]. intros H. inversion H as [|? y' ? ys'' Hy Hrest]; subst.
        apply IH in Hrest. congruence.
    + split; [done|]. intros H. inversion H; congruence.
Qed.








(** A record without an altitude, added to a list that is not empty,
    counts as an aircraft and leaves the reported average altitude as it
    was. *)
Theorem statistics_null_altitude_ignored (now : string) (s : State)
    (sts : list State) (st st' : Statistics) :
  geo_altitude s = PNone →
  sts ≠ [] →
  statistics now sts = Ok st →
  statistics now (s :: sts) = Ok st' →
  average_altitude st' = average_altitude st ∧
  total_aircraft st' = S (total_aircraft st).
Proof.
  intros Hnone Hne. unfold statistics.
  assert (comprehension geo_altitude (λ s, is_not_None (geo_altitude s)) (s :: sts)
          = comprehension geo_altitude (λ s, is_not_None (geo_altitude s)) sts)
    as ->.
  { unfold comprehension. rewrite filter_cons_False; [done|].
    rewrite Hnone. simpl. done. }
  destruct (mapM py_hash (comprehension origin_country _ sts)) as [k|?]; [|done].
  destruct (mapM py_hash (comprehension origin_country _ (s :: sts))) as [k'|?];
    [|done].
  simpl. destruct sts as [|s0 sts0]; [done|].
  destruct (np_mean _) as [avg|?]; [|done]. simpl.
  by intros [= <-] [= <-].
Qed.

Lemma statistics_null_altitude_ignored_witness :
  ∃ st st',
    statistics "12:00:00" [state_altitude (PInt 1000); state_altitude (PInt 2000)] = Ok st ∧
    statistics "12:00:00" [state_altitude PNone; state_altitude (PInt 1000);
                           state_altitude (PInt 2000)] = Ok st' ∧
    average_altitude st' = average_altitude st ∧
    total_aircraft st' = S (total_aircraft st).
Proof.
  do 2 eexists. split; [vm_compute; reflexivity|]. split; [vm_compute; reflexivity|].
  apply (statistics_null_altitude_ignored "12:00:00" (state_altitude PNone)
           [state_altitude (PInt 1000); state_altitude (PInt 2000)]).
  - reflexivity.
  - discriminate.
  - vm_compute. reflexivity.
  - vm_compute. reflexivity.
Defined.

Lemma hashes_cons_duplicate (s s' : State) (sts : list State)
    (keys keys' : list hashed) :
  s' ∈ sts →
  origin_country s' = origin_country s →
  mapM py_hash
    (comprehension origin_country (λ s0, py_truthy (origin_country s0)) sts)
    = Ok keys →
  mapM py_hash
    (comprehension origin_country (λ s0, py_truthy (origin_country s0)) (s :: sts))
    = Ok keys' →
  remove_dups keys' = remove_dups keys.
Proof.
  intros Hin Horigin Hkeys. unfold comprehension in *.
  destruct (py_truthy (origin_country s)) eqn:Hp.
  - rewrite filter_cons_True by done. rewrite fmap_cons. simpl. rewrite Hkeys.
    destruct (py_hash (origin_country s)) as [k|e] eqn:Hk; simpl; [|done].
    intros [= <-]. simpl.
    assert (k ∈ keys) as Hkin.
    { apply mapM_Ok_Forall2 in Hkeys.
      assert (origin_country s ∈
                origin_country <$>
                  filter (λ s0, py_truthy (origin_country s0) = true) sts) as Ho.
      { rewrite <- Horigin. apply list_elem_of_fmap_2.
        apply list_elem_of_filter. split; [|done]. by rewrite Horigin. }
      apply list_elem_of_lookup in Ho as [i Hi].
      destruct (Forall2_lookup_l _ _ _ i _ Hkeys Hi) as (y & Hy & Hpy).
      rewrite Hk in Hpy. injection Hpy as ->.
      apply list_elem_of_lookup. by exists i. }
    by destruct (decide_rel elem_of k keys).
  - rewrite filter_cons_False by (by rewrite Hp). rewrite Hkeys.
    by intros [= <-].
Qed.

(** A record whose country of origin is already that of a record of the
    list adds no country: each distinct country is counted once. *)
Theorem statistics_country_counted_once (now : string) (s s' : State)
    (sts : list State) (st st' : Statistics) :
  s' ∈ sts →
  origin_country s' = origin_country s →
  statistics now sts = Ok st →
  statistics now (s :: sts) = Ok st' →
  countries st' = countries st.
Proof.
  intros Hin Horigin. unfold statistics.
  destruct (mapM py_hash (comprehension origin_country _ sts))
    as [keys|?] eqn:Hkeys; [|done].
  destruct (mapM py_hash (comprehension origin_country _ (s :: sts)))
    as [keys'|?] eqn:Hkeys'; [|done].
  pose proof (hashes_cons_duplicate s s' sts keys keys' Hin Horigin Hkeys Hkeys')
    as Hdup.
  simpl.
  destruct (match sts with [] => _ | _ => _ end) as [avg|?]; [|done].
  destruct (np_mean _) as [avg'|?]; [|done]. simpl.
  intros [= <-] [= <-]. simpl. by rewrite Hdup.
Qed.

Lemma statistics_country_counted_once_witness :
  ∃ st st',
    statistics "12:00:00" [state12; state_no_origin] = Ok st ∧
    statistics "12:00:00" [state_equator; state12; state_no_origin] = Ok st' ∧
    countries st' = countries st.
Proof.
  do 2 eexists. split; [vm_compute; reflexivity|]. split; [vm_compute; reflexivity|].
  apply (statistics_country_counted_once "12:00:00" state_equator state12
           [state12; state_no_origin]).
  - left.
  - reflexivity.
  - vm_compute. reflexivity.
  - vm_compute. reflexivity.
Defined.
